(** * ReportView: the report-to-view transformation

    A shallow embedding of [src/frontend/src/components/ReportView.js].
    The component is a function from its [report] prop to a tree of JSX
    elements.  It is written in a dynamically typed language, so the
    embedding works on untyped JavaScript values; a read of a property of
    [undefined] or [null] and a call of something that is not a function
    raise [TypeError], which the embedding returns as a result.

    What is modelled of the language:
    - values are the JSON-shaped ones a report is made of; an object is the
      list of its own enumerable properties in the order in which they
      were added, and [Object.keys] gives its keys as the language orders
      them: the keys that are array indices first, in ascending order,
      then the other keys in the order in which they were added;
    - a read of a property by a name that the program computes
      ([column_types[col]], [missing_counts[col]]) resolves the own
      property of that name and, when there is none, the member of that
      name that the value inherits from its prototypes; the members of
      [Object.prototype] are listed, those of the prototypes of arrays,
      strings, numbers and booleans, which grow with the editions of the
      language, are an interface of the embedding;
    - a read of a property by a name that the program writes ([report.rows],
      [item.feature], [dropped_columns.length], ...) resolves own
      properties, and [length] and the index properties of arrays and
      strings: none of the names that the program writes is the name of
      a member of a prototype of a JSON-shaped value, [length] and [map]
      apart, which are treated where they are used;
    - an element is kept as the JSX has it: its attributes hold the values
      of the expressions as they are written, [key] among them (the
      element that React makes stores the string of that value);
    - a string is the sequence of its code units, one character each;
    - a number is kept as the rational it denotes, or NaN or an infinity:
      the component does no arithmetic, it tests numbers for truthiness,
      compares a length with zero and passes numbers on;
    - the conversions of strings and of objects to numbers are primitives of
      the language that round to binary64 and run [ToPrimitive]; they are an
      interface of the embedding ([Runtime]).

    The component is embedded twice.  The first embedding passes values:
    a report is the tree of its fields, and the panels are read off the
    view it returns.  The second one ([Store]) passes a heap of arrays and
    objects that values refer to, as the language has it, so that what a
    render does to the objects it is given can be stated; it is shown to
    compute what the first one computes. *)

From Stdlib Require Import List String Ascii Bool Arith ZArith QArith Lia.
From Stdlib Require Import DecimalString DecimalNat.
From Stdlib Require Import Permutation Sorted.
Import ListNotations.
Close Scope Q_scope.
Local Open Scope string_scope.
Local Open Scope list_scope.

(** ** JavaScript values *)

Inductive number : Type :=
| NaN
| Infinity (negative : bool)
| Fin (q : Q).

#[warnings="-register-all"]
Inductive jsval : Type :=
| JUndefined
| JNull
| JBool (b : bool)
| JNum (n : number)
| JStr (s : string)
| JArr (items : list jsval)
| JObj (props : list (string * jsval)).

Definition of_nat (n : nat) : number := Fin (inject_Z (Z.of_nat n)).

Definition number_truthy (n : number) : bool :=
  match n with
  | NaN => false
  | Infinity _ => true
  | Fin q => negb (Qnum q =? 0)%Z
  end.

(** [n > 0] on numbers; every comparison with NaN is false. *)
Definition number_gt0 (n : number) : bool :=
  match n with
  | NaN => false
  | Infinity negative => negb negative
  | Fin q => (0 <? Qnum q)%Z
  end.

(** ** Results of evaluation *)

Inductive error : Type := TypeError.

Inductive result (A : Type) : Type :=
| Ok (a : A)
| Throw (e : error).
Arguments Ok {A} a.
Arguments Throw {A} e.

Definition bind {A B : Type} (m : result A) (k : A -> result B) : result B :=
  match m with
  | Ok a => k a
  | Throw e => Throw e
  end.

Declare Scope result_scope.
Delimit Scope result_scope with result.
Notation "x <- m ;; k" := (bind m (fun x => k))
  (at level 61, m at next level, right associativity) : result_scope.
Local Open Scope result_scope.

(** Left-to-right evaluation of a callback over a list; the first throw
    aborts the traversal. *)
Fixpoint map_each {A B : Type} (callback : A -> result B) (items : list A)
  : result (list B) :=
  match items with
  | [] => Ok []
  | item :: rest =>
      first <- callback item ;;
      others <- map_each callback rest ;;
      Ok (first :: others)
  end.

(** ** Primitive operations of the language *)

Definition is_nullish (v : jsval) : bool :=
  match v with
  | JUndefined | JNull => true
  | _ => false
  end.

(** ToBoolean. *)
Definition truthy (v : jsval) : bool :=
  match v with
  | JUndefined | JNull => false
  | JBool b => b
  | JNum n => number_truthy n
  | JStr s => negb (s =? "")
  | JArr _ | JObj _ => true
  end.

(** [a || b] *)
Definition js_or (a b : jsval) : jsval := if truthy a then a else b.

Fixpoint assoc {V : Type} (k : string) (ps : list (string * V)) : option V :=
  match ps with
  | [] => None
  | (k', v) :: ps' => if k' =? k then Some v else assoc k ps'
  end.

Definition string_of_nat (n : nat) : string :=
  NilEmpty.string_of_uint (Nat.to_uint n).

(** The index property names ["0"], ["1"], ... of an array or a string of
    length [n]. *)
Definition index_keys (n : nat) : list string := map string_of_nat (seq 0 n).

Definition index_of (k : string) (n : nat) : option nat :=
  find (fun i => string_of_nat i =? k) (seq 0 n).

(** [v[k]] for a [v] that is neither [undefined] nor [null]. *)
Definition get_own (v : jsval) (k : string) : jsval :=
  match v with
  | JObj ps =>
      match assoc k ps with
      | Some x => x
      | None => JUndefined
      end
  | JArr items =>
      if k =? "length" then JNum (of_nat (List.length items))
      else match index_of k (List.length items) with
           | Some i => nth i items JUndefined
           | None => JUndefined
           end
  | JStr s =>
      if k =? "length" then JNum (of_nat (String.length s))
      else match index_of k (String.length s) with
           | Some i => JStr (substring i 1 s)
           | None => JUndefined
           end
  | _ => JUndefined
  end.

(** [v.k], for a name [k] that the program writes. *)
Definition get (v : jsval) (k : string) : result jsval :=
  if is_nullish v then Throw TypeError else Ok (get_own v k).

(** The own property of a value by a name, when it has one. *)
Definition own_property (v : jsval) (k : string) : option jsval :=
  match v with
  | JObj ps => assoc k ps
  | JArr items =>
      if k =? "length" then Some (JNum (of_nat (List.length items)))
      else option_map (fun i => nth i items JUndefined)
             (index_of k (List.length items))
  | JStr s =>
      if k =? "length" then Some (JNum (of_nat (String.length s)))
      else option_map (fun i => JStr (substring i 1 s))
             (index_of k (String.length s))
  | _ => None
  end.

(** ** The order of the keys of an object

    A key is an array index when it is the canonical numeral of an integer
    from 0 to 2^32 - 2.  The keys of an object come in the order of
    OrdinaryOwnPropertyKeys: the array indices in ascending order, then
    the other keys in the order in which they were added. *)

Definition array_index (k : string) : option N :=
  match NilEmpty.uint_of_string k with
  | Some d =>
      let n := N.of_uint d in
      if (NilEmpty.string_of_uint (N.to_uint n) =? k) && (n <? 4294967295)%N
      then Some n
      else None
  | None => None
  end.

Definition is_array_index (k : string) : bool :=
  match array_index k with
  | Some _ => true
  | None => false
  end.

(** The keys that are array indices, each with its index. *)
Definition indexed (keys : list string) : list (N * string) :=
  flat_map (fun k => match array_index k with
                     | Some n => [(n, k)]
                     | None => []
                     end) keys.

Fixpoint insert_index (entry : N * string) (sorted : list (N * string))
  : list (N * string) :=
  match sorted with
  | [] => [entry]
  | entry' :: rest =>
      if (fst entry <=? fst entry')%N then entry :: sorted
      else entry' :: insert_index entry rest
  end.

Definition sort_indices (entries : list (N * string)) : list (N * string) :=
  fold_right insert_index [] entries.

Definition OwnPropertyKeys (keys : list string) : list string :=
  map snd (sort_indices (indexed keys))
  ++ filter (fun k => negb (is_array_index k)) keys.

(** [Object.keys(v)] *)
Definition Object_keys (v : jsval) : result (list string) :=
  match v with
  | JUndefined | JNull => Throw TypeError
  | JBool _ | JNum _ => Ok []
  | JStr s => Ok (index_keys (String.length s))
  | JArr items => Ok (index_keys (List.length items))
  | JObj ps => Ok (OwnPropertyKeys (map fst ps))
  end.

(** [v.map(f)]: only arrays have a [map] method. *)
Definition Array_map {B : Type} (f : jsval -> result B) (v : jsval)
  : result (list B) :=
  match v with
  | JArr items => map_each f items
  | _ => Throw TypeError
  end.

(** The prototypes of the values that are not plain objects. *)
Inductive prototype : Type :=
| Boolean_prototype
| Number_prototype
| String_prototype
| Array_prototype.

(** The conversions to number that the language leaves to [StringToNumber]
    and [ToPrimitive], and the names of the members of the prototypes of
    booleans, numbers, strings and arrays. *)
Class Runtime : Type := {
  StringToNumber : string -> number;
  ObjectToNumber : jsval -> result number;
  prototype_has : prototype -> string -> bool
}.

(** The names of the members of [Object.prototype], which every value that
    is not [undefined] or [null] inherits: its functions and, for
    [__proto__], the prototype of the value. *)
Definition Object_prototype_names : list string :=
  ["constructor"; "hasOwnProperty"; "isPrototypeOf"; "propertyIsEnumerable";
   "toLocaleString"; "toString"; "valueOf"; "__defineGetter__";
   "__defineSetter__"; "__lookupGetter__"; "__lookupSetter__"; "__proto__"].

Definition Object_prototype_has (k : string) : bool :=
  existsb (String.eqb k) Object_prototype_names.

(** What a read of a property by a computed name gives: the value of an own
    property ([undefined] when no property of the name is found), or the
    member of that name that is inherited from a prototype. *)
Inductive member (V : Type) : Type :=
| Own (v : V)
| Inherits (name : string).
Arguments Own {V} v.
Arguments Inherits {V} name.

Section Coercion.
Context {RT : Runtime}.

Definition ToNumber (v : jsval) : result number :=
  match v with
  | JUndefined => Ok NaN
  | JNull => Ok (of_nat 0)
  | JBool b => Ok (of_nat (if b then 1 else 0))
  | JNum n => Ok n
  | JStr s => Ok (StringToNumber s)
  | JArr _ | JObj _ => ObjectToNumber v
  end.

(** [v > 0] *)
Definition gt0 (v : jsval) : result bool :=
  n <- ToNumber v ;; Ok (number_gt0 n).

(** Whether a value inherits a member of a name from its prototypes. *)
Definition inherited (v : jsval) (k : string) : bool :=
  match v with
  | JUndefined | JNull => false
  | JBool _ => prototype_has Boolean_prototype k || Object_prototype_has k
  | JNum _ => prototype_has Number_prototype k || Object_prototype_has k
  | JStr _ => prototype_has String_prototype k || Object_prototype_has k
  | JArr _ => prototype_has Array_prototype k || Object_prototype_has k
  | JObj _ => Object_prototype_has k
  end.

(** [v[k]] for a [v] that is neither [undefined] nor [null] and a name [k]
    that the program computes. *)
Definition member_of (v : jsval) (k : string) : member jsval :=
  match own_property v k with
  | Some x => Own x
  | None => if inherited v k then Inherits k else Own JUndefined
  end.

(** [v[k]], for a name [k] that the program computes. *)
Definition get_member (v : jsval) (k : string) : result (member jsval) :=
  if is_nullish v then Throw TypeError else Ok (member_of v k).

End Coercion.

(** ** The element tree

    A JSX element is its tag, its attributes in source order and its
    children.  A child is literal text, an embedded expression that
    evaluated to a value or to a member inherited from a prototype, an
    element, or the array an embedded [map] produced.  The tree is the
    same whatever the values are, trees of fields or references into a
    heap. *)

#[warnings="-register-all"]
Inductive node (V : Type) : Type :=
| Text (s : string)
| Val (v : V)
| Inherited (name : string)
| Elem (tag : string) (attrs : list (string * V)) (children : list (node V))
| Arr (items : list (node V)).
Arguments Text {V} s.
Arguments Val {V} v.
Arguments Inherited {V} name.
Arguments Elem {V} tag attrs children.
Arguments Arr {V} items.

(** The values of the literals of the JSX: a string, a natural number. *)
Class Literals (V : Type) : Type := {
  lit_string : string -> V;
  lit_nat : nat -> V
}.

#[export] Instance jsval_literals : Literals jsval :=
  {| lit_string := JStr; lit_nat := fun n => JNum (of_nat n) |}.

Section View.
Context {V : Type} {L : Literals V}.

Definition className (c : string) : string * V := ("className", lit_string c).

(** The view returned when there is no report. *)
Definition empty_state : node V :=
  Elem "div" [className "text-center text-gray-500 mt-10"]
    [Elem "p" [] [Text "No report data available yet. Upload a dataset first!"]].

Definition Card (children : list (node V)) : node V :=
  Elem "Card" [className "shadow-md"]
    [Elem "CardContent" [className "p-6"] children].

Definition labelled (label : string) (v : V) : node V :=
  Elem "p" [] [Elem "strong" [] [Text label]; Text " "; Val v].

(** Summary; [target] is the value of [detected_target || "None"]. *)
Definition Summary (rows columns target cleaned_path model_path : V) : node V :=
  Card
    [Elem "h2" [className "text-2xl font-semibold mb-4"]
       [Text "📊 Dataset Summary"];
     labelled "Total Rows:" rows;
     labelled "Total Columns:" columns;
     labelled "Detected Target:" target;
     labelled "Cleaned File:" cleaned_path;
     labelled "Model Path:" model_path].

Definition th (label : string) : node V :=
  Elem "th" [className "border p-2 text-left"] [Text label].

Definition td (v : V) : node V :=
  Elem "td" [className "border p-2"] [Val v].

(** The child that an embedded read of a property by a computed name
    is. *)
Definition shown (m : member V) : node V :=
  match m with
  | Own v => Val v
  | Inherits name => Inherited name
  end.

Definition cell (m : member V) : node V :=
  Elem "td" [className "border p-2"] [shown m].

(** One row of the column table: the column, its type, its missing count. *)
Definition column_row (col : string) (type missing : member V) : node V :=
  Elem "tr" [("key", lit_string col)]
    [td (lit_string col); cell type; cell missing].

(** Column Info *)
Definition ColumnInfo (rows : list (node V)) : node V :=
  Card
    [Elem "h2" [className "text-xl font-semibold mb-4"] [Text "🧩 Column Types"];
     Elem "table" [className "w-full border border-gray-300"]
       [Elem "thead" []
          [Elem "tr" [className "bg-gray-100"]
             [th "Column"; th "Type"; th "Missing Values"]];
        Elem "tbody" [] [Arr rows]]].

(** One item of the list of dropped columns; [key] holds the value of
    [col] as the JSX has it. *)
Definition li (col : V) : node V := Elem "li" [("key", col)] [Val col].

Definition dropped_list (items : list (node V)) : node V :=
  Elem "ul" [className "list-disc pl-6"] [Arr items].

Definition no_columns_dropped : node V :=
  Elem "p" [] [Text "No columns dropped ✅"].

(** Dropped Columns *)
Definition DroppedColumns (body : node V) : node V :=
  Card
    [Elem "h2" [className "text-xl font-semibold mb-4"] [Text "🗑️ Dropped Columns"];
     body].

(** Feature Importance Chart *)
Definition FeatureChart (featureData : V) : node V :=
  Card
    [Elem "h2" [className "text-xl font-semibold mb-4"]
       [Text "🔥 Top Features by Importance"];
     Elem "ResponsiveContainer"
       [("width", lit_string "100%"); ("height", lit_nat 300)]
       [Elem "BarChart" [("data", featureData)]
          [Elem "CartesianGrid" [("strokeDasharray", lit_string "3 3")] [];
           Elem "XAxis" [("dataKey", lit_string "name")] [];
           Elem "YAxis" [] [];
           Elem "Tooltip" [] [];
           Elem "Bar" [("dataKey", lit_string "importance");
                       ("fill", lit_string "#8884d8")] []]]].

(** The root of the view of a report, with its four slots in order. *)
Definition Dashboard (summary table dropped chart : node V) : node V :=
  Elem "div" [className "p-8 space-y-8"] [summary; table; dropped; chart].

End View.

(** ** The component *)

(** The callback of the feature series: one [{name, importance}] object per
    item. *)
Definition feature_item (item : jsval) : result jsval :=
  name <- get item "feature" ;;
  importance <- get item "importance" ;;
  Ok (JObj [("name", name); ("importance", importance)]).

(** [model_metrics?.feature_importances?.map(...)]: each [?.] yields
    [undefined] when what stands before it is [undefined] or [null]. *)
Definition feature_chain (model_metrics : jsval) : result jsval :=
  if is_nullish model_metrics then Ok JUndefined
  else
    let feature_importances := get_own model_metrics "feature_importances" in
    if is_nullish feature_importances then Ok JUndefined
    else items <- Array_map feature_item feature_importances ;; Ok (JArr items).

Definition featureData (model_metrics : jsval) : result jsval :=
  mapped <- feature_chain model_metrics ;;
  Ok (js_or mapped (JArr [])).

Section Component.
Context {RT : Runtime}.

(** The rows of the column table. *)
Definition column_rows (column_types missing_counts : jsval)
  : result (list (node jsval)) :=
  keys <- Object_keys column_types ;;
  map_each (fun col =>
          type <- get_member column_types col ;;
          missing <- get_member missing_counts col ;;
          Ok (column_row col type missing))
       keys.

(** The body of the dropped-columns panel. *)
Definition dropped_body (dropped_columns : jsval) : result (node jsval) :=
  len <- get dropped_columns "length" ;;
  nonempty <- gt0 len ;;
  if nonempty
  then items <- Array_map (fun col => Ok (li col)) dropped_columns ;;
       Ok (dropped_list items)
  else Ok no_columns_dropped.

(** [featureData.length > 0 && <Card>...</Card>] *)
Definition chart_slot (featureData : jsval) : result (node jsval) :=
  len <- get featureData "length" ;;
  nonempty <- gt0 len ;;
  Ok (if nonempty then FeatureChart featureData else Val (JBool false)).

Definition ReportView (report : jsval) : result (node jsval) :=
  if negb (truthy report) then Ok empty_state
  else
    let cleaned_path := get_own report "cleaned_path" in
    let column_types := get_own report "column_types" in
    let columns := get_own report "columns" in
    let datetime_columns := get_own report "datetime_columns" in
    let detected_target := get_own report "detected_target" in
    let dropped_columns := get_own report "dropped_columns" in
    let missing_counts := get_own report "missing_counts" in
    let model_metrics := get_own report "model_metrics" in
    let model_path := get_own report "model_path" in
    let rows := get_own report "rows" in
    series <- featureData model_metrics ;;
    table_rows <- column_rows column_types missing_counts ;;
    dropped <- dropped_body dropped_columns ;;
    chart <- chart_slot series ;;
    Ok (Dashboard
          (Summary rows columns (js_or detected_target (JStr "None"))
                   cleaned_path model_path)
          (ColumnInfo table_rows)
          (DroppedColumns dropped)
          chart).

End Component.

(** ** The component over a heap

    In the language an array or an object is a reference to a cell of the
    heap, and two values may refer to the same cell.  Here a value is a
    primitive or a reference, the heap is the list of its cells, a
    reference is an index into it, and an evaluation takes the heap and
    returns it: whatever the component did to a cell would show in the
    heap it returns.  The array that [map] returns for the feature series,
    the object literal of its callback and the array literal [[]] are new
    cells.  The elements of the view and the arrays of elements are new at
    every render as well; they are the tree that is returned, which is not
    made of cells. *)

Inductive val : Type :=
| VUndefined
| VNull
| VBool (b : bool)
| VNum (n : number)
| VStr (s : string)
| VRef (l : nat).

Inductive object : Type :=
| OArr (items : list val)
| OObj (props : list (string * val)).

Definition heap : Type := list object.

(** What a value stands for, its references followed through the heap. *)
#[warnings="-register-all"]
Inductive repr (h : heap) : val -> jsval -> Prop :=
| repr_undefined : repr h VUndefined JUndefined
| repr_null : repr h VNull JNull
| repr_bool (b : bool) : repr h (VBool b) (JBool b)
| repr_num (n : number) : repr h (VNum n) (JNum n)
| repr_str (s : string) : repr h (VStr s) (JStr s)
| repr_array (l : nat) (items : list val) (jitems : list jsval) :
    nth_error h l = Some (OArr items) ->
    Forall2 (repr h) items jitems ->
    repr h (VRef l) (JArr jitems)
| repr_object (l : nat) (props : list (string * val))
    (jprops : list (string * jsval)) :
    nth_error h l = Some (OObj props) ->
    Forall2 (fun p q => fst p = fst q /\ repr h (snd p) (snd q)) props jprops ->
    repr h (VRef l) (JObj jprops).

(** The conversion of the object of a cell to a number reads the heap; it
    depends on what the object stands for and on nothing else. *)
Class HeapRuntime : Type := {
  on_values :: Runtime;
  RefToNumber : heap -> nat -> result number;
  RefToNumber_repr :
    forall (h : heap) (l : nat) (j : jsval),
      repr h (VRef l) j -> RefToNumber h l = ObjectToNumber j
}.

(** An evaluation takes the heap and returns it with its result. *)
Definition M (A : Type) : Type := heap -> result A * heap.

Definition ret {A : Type} (a : A) : M A := fun h => (Ok a, h).

Definition throw {A : Type} (e : error) : M A := fun h => (Throw e, h).

(** An evaluation that looks at the heap and leaves it as it is. *)
Definition read {A : Type} (f : heap -> A) : M A := fun h => (Ok (f h), h).

(** A new cell, after the cells there are. *)
Definition alloc (o : object) : M val :=
  fun h => (Ok (VRef (List.length h)), h ++ [o]).

(** The operations of the language and the component, on the heap. *)
Module Store.

#[export] Instance val_literals : Literals val :=
  {| lit_string := VStr; lit_nat := fun n => VNum (of_nat n) |}.

Definition bind {A B : Type} (m : M A) (k : A -> M B) : M B :=
  fun h =>
    match m h with
    | (Ok a, h') => k a h'
    | (Throw e, h') => (Throw e, h')
    end.

Declare Scope store_scope.
Delimit Scope store_scope with store.
Notation "x <- m ;; k" := (bind m (fun x => k))
  (at level 61, m at next level, right associativity) : store_scope.
Local Open Scope store_scope.

Fixpoint map_each {A B : Type} (callback : A -> M B) (items : list A)
  : M (list B) :=
  match items with
  | [] => ret []
  | item :: rest =>
      first <- callback item ;;
      others <- map_each callback rest ;;
      ret (first :: others)
  end.

Definition is_nullish (v : val) : bool :=
  match v with
  | VUndefined | VNull => true
  | _ => false
  end.

Definition truthy (v : val) : bool :=
  match v with
  | VUndefined | VNull => false
  | VBool b => b
  | VNum n => number_truthy n
  | VStr s => negb (s =? "")
  | VRef _ => true
  end.

(** [v[k]] for a [v] that is neither [undefined] nor [null]. *)
Definition get_own (h : heap) (v : val) (k : string) : val :=
  match v with
  | VRef l =>
      match nth_error h l with
      | Some (OObj ps) =>
          match assoc k ps with
          | Some x => x
          | None => VUndefined
          end
      | Some (OArr items) =>
          if k =? "length" then VNum (of_nat (List.length items))
          else match index_of k (List.length items) with
               | Some i => nth i items VUndefined
               | None => VUndefined
               end
      | None => VUndefined
      end
  | VStr s =>
      if k =? "length" then VNum (of_nat (String.length s))
      else match index_of k (String.length s) with
           | Some i => VStr (substring i 1 s)
           | None => VUndefined
           end
  | _ => VUndefined
  end.

(** [v.k], for a name [k] that the program writes. *)
Definition get (v : val) (k : string) : M val :=
  if is_nullish v then throw TypeError else read (fun h => get_own h v k).

(** The own property of a value by a name, when it has one. *)
Definition own_property (h : heap) (v : val) (k : string) : option val :=
  match v with
  | VRef l =>
      match nth_error h l with
      | Some (OObj ps) => assoc k ps
      | Some (OArr items) =>
          if k =? "length" then Some (VNum (of_nat (List.length items)))
          else option_map (fun i => nth i items VUndefined)
                 (index_of k (List.length items))
      | None => None
      end
  | VStr s =>
      if k =? "length" then Some (VNum (of_nat (String.length s)))
      else option_map (fun i => VStr (substring i 1 s))
             (index_of k (String.length s))
  | _ => None
  end.

(** [Object.keys(v)] *)
Definition Object_keys (v : val) : M (list string) :=
  match v with
  | VUndefined | VNull => throw TypeError
  | VBool _ | VNum _ => ret []
  | VStr s => ret (index_keys (String.length s))
  | VRef l =>
      read (fun h =>
              match nth_error h l with
              | Some (OArr items) => index_keys (List.length items)
              | Some (OObj ps) => OwnPropertyKeys (map fst ps)
              | None => []
              end)
  end.

(** [v.map(f)]: the callback runs on the items in order and what it
    returns is collected; the caller makes the array of it. *)
Definition Array_map {B : Type} (f : val -> M B) (v : val) : M (list B) :=
  fun h =>
    match v with
    | VRef l =>
        match nth_error h l with
        | Some (OArr items) => map_each f items h
        | _ => (Throw TypeError, h)
        end
    | _ => (Throw TypeError, h)
    end.

(** The callback of the feature series allocates the object it returns. *)
Definition feature_item (item : val) : M val :=
  name <- get item "feature" ;;
  importance <- get item "importance" ;;
  alloc (OObj [("name", name); ("importance", importance)]).

(** [model_metrics?.feature_importances?.map(...)]; [map] allocates the
    array it returns. *)
Definition feature_chain (model_metrics : val) : M val :=
  if is_nullish model_metrics then ret VUndefined
  else
    feature_importances <- get model_metrics "feature_importances" ;;
    if is_nullish feature_importances then ret VUndefined
    else items <- Array_map feature_item feature_importances ;;
         alloc (OArr items).

(** [... || []]: the empty array is allocated when it is needed. *)
Definition featureData (model_metrics : val) : M val :=
  mapped <- feature_chain model_metrics ;;
  if truthy mapped then ret mapped else alloc (OArr []).

Section Component.
Context {RT : HeapRuntime}.

Definition ToNumber (v : val) : M number :=
  fun h =>
    (match v with
     | VUndefined => Ok NaN
     | VNull => Ok (of_nat 0)
     | VBool b => Ok (of_nat (if b then 1 else 0))
     | VNum n => Ok n
     | VStr s => Ok (StringToNumber s)
     | VRef l => RefToNumber h l
     end, h).

(** [v > 0] *)
Definition gt0 (v : val) : M bool :=
  n <- ToNumber v ;; ret (number_gt0 n).

(** Whether a value inherits a member of a name from its prototypes. *)
Definition inherited (h : heap) (v : val) (k : string) : bool :=
  match v with
  | VUndefined | VNull => false
  | VBool _ => prototype_has Boolean_prototype k || Object_prototype_has k
  | VNum _ => prototype_has Number_prototype k || Object_prototype_has k
  | VStr _ => prototype_has String_prototype k || Object_prototype_has k
  | VRef l =>
      match nth_error h l with
      | Some (OArr _) => prototype_has Array_prototype k || Object_prototype_has k
      | _ => Object_prototype_has k
      end
  end.

Definition member_of (h : heap) (v : val) (k : string) : member val :=
  match own_property h v k with
  | Some x => Own x
  | None => if inherited h v k then Inherits k else Own VUndefined
  end.

(** [v[k]], for a name [k] that the program computes. *)
Definition get_member (v : val) (k : string) : M (member val) :=
  if is_nullish v then throw TypeError else read (fun h => member_of h v k).

Definition column_rows (column_types missing_counts : val)
  : M (list (node val)) :=
  keys <- Object_keys column_types ;;
  map_each (fun col =>
          type <- get_member column_types col ;;
          missing <- get_member missing_counts col ;;
          ret (column_row col type missing))
       keys.

Definition dropped_body (dropped_columns : val) : M (node val) :=
  len <- get dropped_columns "length" ;;
  nonempty <- gt0 len ;;
  if nonempty
  then items <- Array_map (fun col => ret (li col)) dropped_columns ;;
       ret (dropped_list items)
  else ret no_columns_dropped.

Definition chart_slot (featureData : val) : M (node val) :=
  len <- get featureData "length" ;;
  nonempty <- gt0 len ;;
  ret (if nonempty then FeatureChart featureData else Val (VBool false)).

Definition ReportView (report : val) : M (node val) :=
  if negb (truthy report) then ret empty_state
  else
    cleaned_path <- get report "cleaned_path" ;;
    column_types <- get report "column_types" ;;
    columns <- get report "columns" ;;
    datetime_columns <- get report "datetime_columns" ;;
    detected_target <- get report "detected_target" ;;
    dropped_columns <- get report "dropped_columns" ;;
    missing_counts <- get report "missing_counts" ;;
    model_metrics <- get report "model_metrics" ;;
    model_path <- get report "model_path" ;;
    rows <- get report "rows" ;;
    series <- featureData model_metrics ;;
    table_rows <- column_rows column_types missing_counts ;;
    dropped <- dropped_body dropped_columns ;;
    chart <- chart_slot series ;;
    ret (Dashboard
           (Summary rows columns
              (if truthy detected_target then detected_target else VStr "None")
              cleaned_path model_path)
           (ColumnInfo table_rows)
           (DroppedColumns dropped)
           chart).

End Component.

End Store.

(** Two views that differ in their values only, which are related. *)
#[warnings="-register-all"]
Inductive node_rel {V W : Type} (R : V -> W -> Prop) : node V -> node W -> Prop :=
| rel_text (s : string) : node_rel R (Text s) (Text s)
| rel_val (v : V) (w : W) : R v w -> node_rel R (Val v) (Val w)
| rel_inherited (name : string) : node_rel R (Inherited name) (Inherited name)
| rel_elem (tag : string) (attrs : list (string * V)) (attrs' : list (string * W))
    (children : list (node V)) (children' : list (node W)) :
    Forall2 (fun a a' => fst a = fst a' /\ R (snd a) (snd a')) attrs attrs' ->
    Forall2 (node_rel R) children children' ->
    node_rel R (Elem tag attrs children) (Elem tag attrs' children')
| rel_arr (items : list (node V)) (items' : list (node W)) :
    Forall2 (node_rel R) items items' ->
    node_rel R (Arr items) (Arr items').

(** Two reads by a computed name that give related values, or the same
    inherited member. *)
Inductive member_rel {V W : Type} (R : V -> W -> Prop)
  : member V -> member W -> Prop :=
| rel_own (v : V) (w : W) : R v w -> member_rel R (Own v) (Own w)
| rel_inherits (name : string) : member_rel R (Inherits name) (Inherits name).

(** Two results that both throw, or both return and what they return is
    related. *)
Definition result_rel {A B : Type} (R : A -> B -> Prop)
  (r : result A) (r' : result B) : Prop :=
  match r, r' with
  | Ok a, Ok b => R a b
  | Throw e, Throw e' => e = e'
  | _, _ => False
  end.

(** ** Evaluations on the heap *)

(** An evaluation that leaves every cell of the heap as it is and may add
    cells after them. *)
Definition allocates {A : Type} (m : M A) : Prop :=
  forall h, exists fresh, snd (m h) = h ++ fresh.

(** A relation that holds in a heap holds in the heap with more cells. *)
Definition monotone {A B : Type} (R : heap -> A -> B -> Prop) : Prop :=
  forall h fresh a b, R h a b -> R (h ++ fresh) a b.

(** Evaluated in the heap [h], [m] allocates and returns what [p] returns,
    up to [R] in the heap it leaves. *)
Definition simulates {A B : Type} (R : heap -> A -> B -> Prop) (h : heap)
  (m : M A) (p : result B) : Prop :=
  exists fresh,
    snd (m h) = h ++ fresh /\ result_rel (R (h ++ fresh)) (fst (m h)) p.

(** ** Reading a view *)

(** The tags of the elements of a view, in document order. *)
Fixpoint tags {V : Type} (n : node V) : list string :=
  match n with
  | Text _ | Val _ | Inherited _ => []
  | Elem tag _ children => tag :: flat_map tags children
  | Arr items => flat_map tags items
  end.

Definition count_tag {V : Type} (tag : string) (view : node V) : nat :=
  List.length (filter (String.eqb tag) (tags view)).

(** The number of panels of a view: every panel is a [Card]. *)
Definition panels {V : Type} (view : node V) : nat := count_tag "Card" view.

(** The children of the root of a view. *)
Definition slots {V : Type} (view : node V) : list (node V) :=
  match view with
  | Elem _ _ children => children
  | _ => []
  end.

(** The node that a path leads to: from an element to its child at the
    first position of the path, and on from there. *)
Fixpoint at_path {V : Type} (path : list nat) (n : node V) : option (node V) :=
  match path with
  | [] => Some n
  | i :: rest =>
      match nth_error (slots n) i with
      | Some child => at_path rest child
      | None => None
      end
  end.

(** ** Reports

    The shape of a report that the view is written for: the two mappings
    and the dropped columns are there, and the model metrics, when there
    are any, list feature importances as a sequence of records or not at
    all.  The other fields are free, and may be missing. *)

Definition features_ok (model_metrics : jsval) : bool :=
  is_nullish model_metrics
  || match get_own model_metrics "feature_importances" with
     | JUndefined | JNull => true
     | JArr items => forallb (fun item => negb (is_nullish item)) items
     | _ => false
     end.

Record Present (report : jsval) (column_types missing_counts : list (string * jsval))
  (dropped_columns : list jsval) : Prop := {
  present_report : truthy report = true;
  present_column_types : get_own report "column_types" = JObj column_types;
  present_missing_counts : get_own report "missing_counts" = JObj missing_counts;
  present_dropped_columns : get_own report "dropped_columns" = JArr dropped_columns;
  present_model_metrics : features_ok (get_own report "model_metrics") = true
}.

(** The feature series in the words of the specification: one
    [{name: feature, importance: importance}] per item, in order. *)
Definition FeatureSeries_item (item : jsval) : jsval :=
  JObj [("name", get_own item "feature");
        ("importance", get_own item "importance")].

Definition FeatureSeries (model_metrics : jsval) : list jsval :=
  if is_nullish model_metrics then []
  else match get_own model_metrics "feature_importances" with
       | JArr items => map FeatureSeries_item items
       | _ => []
       end.

(** The contents of the panels of a report of this shape. *)

(** What a read of an object by a computed name gives: its own entry of
    that name, else the member of that name of [Object.prototype], else
    [undefined]. *)
Definition object_member (props : list (string * jsval)) (k : string)
  : member jsval :=
  match assoc k props with
  | Some x => Own x
  | None => if Object_prototype_has k then Inherits k else Own JUndefined
  end.

(** One row per key of [column_types], in the order of [Object.keys]. *)
Definition table_of (column_types missing_counts : list (string * jsval))
  : list (node jsval) :=
  map (fun col => column_row col (object_member column_types col)
                                 (object_member missing_counts col))
      (OwnPropertyKeys (map fst column_types)).

(** The affirmation for no dropped column, else one item per column. *)
Definition dropped_of (dropped_columns : list jsval) : node jsval :=
  match dropped_columns with
  | [] => no_columns_dropped
  | _ :: _ => dropped_list (map li dropped_columns)
  end.

(** The chart for a series that is not empty, else nothing. *)
Definition chart_of (series : list jsval) : node jsval :=
  match series with
  | [] => Val (JBool false)
  | _ :: _ => FeatureChart (JArr series)
  end.

(** ** Reports to run the component on *)

(** A runtime to run examples with; no example reaches a conversion or a
    prototype of a value that is not an object. *)
Definition example_runtime : Runtime :=
  {| StringToNumber := fun _ => NaN; ObjectToNumber := fun _ => Ok NaN;
     prototype_has := fun _ _ => false |}.

Definition num (z : Z) : jsval := JNum (Fin (inject_Z z)).

(** The report of the scenarios of the specification. *)
Definition age_report (extra : list (string * jsval)) : jsval :=
  JObj ([("rows", num 100); ("columns", num 5); ("detected_target", JNull);
         ("cleaned_path", JStr "x.csv"); ("model_path", JStr "m.pkl");
         ("column_types", JObj [("age", JStr "int")]);
         ("missing_counts", JObj [("age", num 0)])] ++ extra).

Definition importance_of_age : jsval :=
  JObj [("feature", JStr "age"); ("importance", JNum (Fin (8 # 10)))].

(** The report of the second scenario: no dropped column, one feature. *)
Definition charted_report : jsval :=
  age_report [("dropped_columns", JArr []);
              ("model_metrics",
               JObj [("feature_importances", JArr [importance_of_age])])].

(** A report with two dropped columns and a column without missing count. *)
Definition dropped_report : jsval :=
  JObj [("rows", num 0); ("columns", num 0);
        ("column_types", JObj [("age", JStr "int"); ("city", JStr "str")]);
        ("missing_counts", JObj [("age", num 0)]);
        ("dropped_columns", JArr [JStr "id"; JStr "notes"])].

(** A report whose column types were added with the array indices [10]
    and [2] among their keys, the greater first. *)
Definition reordered_report : jsval :=
  JObj [("column_types",
         JObj [("b", JStr "str"); ("10", JStr "int"); ("a", JStr "str");
               ("2", JStr "int")]);
        ("missing_counts", JObj []);
        ("dropped_columns", JArr [])].


(** The second scenario in a heap: the report is the last cell. *)
Definition charted_heap : heap :=
  [OObj [("feature", VStr "age");
               ("importance", VNum (Fin (8 # 10)))];
   OArr [VRef 0];
   OObj [("feature_importances", VRef 1)];
   OObj [("age", VStr "int")];
   OObj [("age", VNum (Fin (inject_Z 0)))];
   OArr [];
   OObj [("rows", VNum (Fin (inject_Z 100)));
               ("columns", VNum (Fin (inject_Z 5)));
               ("detected_target", VNull);
               ("cleaned_path", VStr "x.csv");
               ("model_path", VStr "m.pkl");
               ("column_types", VRef 3);
               ("missing_counts", VRef 4);
               ("dropped_columns", VRef 5);
               ("model_metrics", VRef 2)]].

Definition example_heap_runtime : HeapRuntime :=
  {| on_values := example_runtime;
     RefToNumber := fun _ _ => Ok NaN;
     RefToNumber_repr := fun _ _ _ _ => eq_refl |}.

(** ** Further readings of views and heaps *)

(** The [key] of an element, when it has one. *)
Definition key_of {V : Type} (n : node V) : option V :=
  match n with
  | Elem _ attrs _ => assoc "key" attrs
  | _ => None
  end.

(** The fields that the view is made of. *)
Definition fields_in_use : list string :=
  ["cleaned_path"; "column_types"; "columns"; "detected_target";
   "dropped_columns"; "missing_counts"; "model_metrics"; "model_path"; "rows"].

(** A value that refers to no cell beyond those of the heap. *)
Definition bound (h : heap) (v : val) : bool :=
  match v with
  | VRef l => (l <? List.length h)%nat
  | _ => true
  end.

(** The cell of the object that the callback of the feature series makes
    of an item. *)
Definition series_cell (h : heap) (item : val) : object :=
  OObj [("name", Store.get_own h item "feature");
        ("importance", Store.get_own h item "importance")].

(** The report of the scenarios with a string for its feature
    importances. *)
Definition misshapen_features_report : jsval :=
  age_report [("dropped_columns", JArr []);
              ("model_metrics", JObj [("feature_importances", JStr "")])].

(** A report without [missing_counts]. *)
Definition uncounted_report (column_types : list (string * jsval)) : jsval :=
  JObj [("column_types", JObj column_types); ("dropped_columns", JArr [])].

(** A report with whatever for its dropped columns. *)
Definition dropping_report (dropped_columns : jsval) : jsval :=
  JObj [("column_types", JObj [("age", JStr "int")]);
        ("missing_counts", JObj [("age", num 0)]);
        ("dropped_columns", dropped_columns)].

(** A report with an array for its column types. *)
Definition listed_types_report : jsval :=
  JObj [("column_types", JArr [JStr "int"; JStr "str"]);
        ("missing_counts", JObj []);
        ("dropped_columns", JArr [])].

(** ** The order of the keys *)

Lemma insert_index_permutation (entry : N * string) (sorted : list (N * string)) :
  Permutation (entry :: sorted) (insert_index entry sorted).
Proof.
  induction sorted as [|entry' rest IH]; cbn [insert_index]; [reflexivity|].
  destruct (fst entry <=? fst entry')%N; [reflexivity|].
  rewrite perm_swap; now apply perm_skip.
Qed.

Lemma sort_indices_permutation (entries : list (N * string)) :
  Permutation entries (sort_indices entries).
Proof.
  induction entries as [|entry entries IH]; cbn [sort_indices fold_right];
    [reflexivity|].
  rewrite <- insert_index_permutation; now apply perm_skip.
Qed.

Lemma insert_index_sorted (entry : N * string) (sorted : list (N * string)) :
  Sorted (fun a b => (fst a <= fst b)%N) sorted ->
  Sorted (fun a b => (fst a <= fst b)%N) (insert_index entry sorted).
Proof.
  induction 1 as [|entry' rest Hrest IH Hhd]; cbn [insert_index].
  - repeat constructor.
  - destruct (N.leb_spec (fst entry) (fst entry')) as [Hle | Hlt].
    + repeat constructor; assumption.
    + constructor; [exact IH|].
      destruct rest as [|entry'' rest']; cbn [insert_index].
      * constructor; lia.
      * destruct (fst entry <=? fst entry'')%N; constructor;
          [lia | now inversion Hhd].
Qed.

Lemma sort_indices_sorted (entries : list (N * string)) :
  Sorted (fun a b => (fst a <= fst b)%N) (sort_indices entries).
Proof.
  induction entries as [|entry entries IH]; cbn [sort_indices fold_right];
    [constructor | now apply insert_index_sorted].
Qed.

Lemma indexed_keys (keys : list string) :
  map snd (indexed keys) = filter is_array_index keys.
Proof.
  unfold indexed, is_array_index.
  induction keys as [|k keys IH]; cbn [flat_map filter]; [reflexivity|].
  destruct (array_index k); cbn [app map snd]; now rewrite IH.
Qed.

Lemma indexed_index (keys : list string) (n : N) (k : string) :
  In (n, k) (indexed keys) -> array_index k = Some n.
Proof.
  unfold indexed; rewrite in_flat_map; intros (k' & _ & Hin).
  destruct (array_index k') as [n'|] eqn:Hk'; [|contradiction].
  destruct Hin as [[= <- <-] | []]; exact Hk'.
Qed.

Lemma filter_partition {A : Type} (f : A -> bool) (l : list A) :
  Permutation (filter f l ++ filter (fun a => negb (f a)) l) l.
Proof.
  induction l as [|a l IH]; cbn [filter]; [reflexivity|].
  destruct (f a); cbn [negb app].
  - now apply perm_skip.
  - rewrite <- Permutation_middle; now apply perm_skip.
Qed.

(** [Object.keys] gives every key, once. *)
Lemma OwnPropertyKeys_permutation (keys : list string) :
  Permutation (OwnPropertyKeys keys) keys.
Proof.
  unfold OwnPropertyKeys.
  rewrite <- (filter_partition is_array_index keys) at 3.
  apply Permutation_app_tail.
  rewrite <- indexed_keys; apply Permutation_map.
  symmetry; apply sort_indices_permutation.
Qed.

Lemma OwnPropertyKeys_In (keys : list string) (k : string) :
  In k (OwnPropertyKeys keys) <-> In k keys.
Proof.
  split; apply Permutation_in;
    [|symmetry]; apply OwnPropertyKeys_permutation.
Qed.

Lemma OwnPropertyKeys_NoDup (keys : list string) :
  NoDup keys -> NoDup (OwnPropertyKeys keys).
Proof.
  apply Permutation_NoDup; symmetry; apply OwnPropertyKeys_permutation.
Qed.

(** Without array indices among them, the keys come in the order in which
    they were added. *)
Lemma OwnPropertyKeys_plain (keys : list string) :
  forallb (fun k => negb (is_array_index k)) keys = true ->
  OwnPropertyKeys keys = keys.
Proof.
  intros Hplain; unfold OwnPropertyKeys.
  assert (Hnone : indexed keys = []).
  { unfold indexed; induction keys as [|k keys IH]; [reflexivity|].
    cbn [forallb] in Hplain; apply andb_true_iff in Hplain as [Hk Hrest].
    unfold is_array_index in Hk; cbn [flat_map].
    destruct (array_index k); [discriminate | now apply IH]. }
  rewrite Hnone; cbn [sort_indices fold_right map app].
  clear Hnone; induction keys as [|k keys IH]; [reflexivity|].
  cbn [forallb] in Hplain; apply andb_true_iff in Hplain as [Hk Hrest].
  cbn [filter]; rewrite Hk; f_equal; now apply IH.
Qed.

Lemma assoc_In {V : Type} (k : string) (ps : list (string * V)) :
  In k (map fst ps) -> exists v, assoc k ps = Some v.
Proof.
  induction ps as [|[k0 v0] ps IH]; cbn [map fst In assoc]; [contradiction|].
  intros [-> | Hin].
  - rewrite String.eqb_refl; now exists v0.
  - destruct (k0 =? k); [now exists v0 | now apply IH].
Qed.

(** ** Evaluation lemmas *)

Lemma map_each_pure {A B : Type} (f : A -> result B) (g : A -> B) (l : list A) :
  (forall a, In a l -> f a = Ok (g a)) -> map_each f l = Ok (map g l).
Proof.
  induction l as [|a l IH]; intros Hf; simpl.
  - reflexivity.
  - rewrite (Hf a (or_introl eq_refl)); simpl.
    rewrite IH by (intros b Hb; apply Hf; now right).
    reflexivity.
Qed.

Lemma get_present (v : jsval) (k : string) :
  is_nullish v = false -> get v k = Ok (get_own v k).
Proof. unfold get; now intros ->. Qed.

Lemma get_absent (v : jsval) (k : string) :
  is_nullish v = true -> get v k = Throw TypeError.
Proof. unfold get; now intros ->. Qed.

Lemma throw_TypeError {A : Type} (e : error) : @Throw A e = Throw TypeError.
Proof. now destruct e. Qed.

Lemma truthy_not_nullish (v : jsval) : truthy v = true -> is_nullish v = false.
Proof. now destruct v. Qed.

Lemma feature_item_present (item : jsval) :
  is_nullish item = false -> feature_item item = Ok (FeatureSeries_item item).
Proof.
  intros H; unfold feature_item.
  now rewrite !get_present by exact H.
Qed.

Lemma feature_items_present (items : list jsval) :
  forallb (fun item => negb (is_nullish item)) items = true ->
  map_each feature_item items = Ok (map FeatureSeries_item items).
Proof.
  intros H; apply map_each_pure; intros item Hin.
  apply feature_item_present.
  rewrite forallb_forall in H.
  now apply negb_true_iff, H.
Qed.

Lemma featureData_series (model_metrics : jsval) :
  features_ok model_metrics = true ->
  featureData model_metrics = Ok (JArr (FeatureSeries model_metrics)).
Proof.
  unfold features_ok, featureData, feature_chain, FeatureSeries.
  destruct (is_nullish model_metrics); simpl; [reflexivity|].
  destruct (get_own model_metrics "feature_importances")
    as [| | | | |items|]; simpl; try reflexivity; try discriminate.
  intros H; now rewrite (feature_items_present _ H).
Qed.

Section Evaluation.
Context {RT : Runtime}.

Lemma gt0_of_nat (n : nat) : gt0 (JNum (of_nat n)) = Ok (0 <? n)%nat.
Proof. now destruct n. Qed.

Lemma column_rows_mappings (column_types missing_counts : list (string * jsval)) :
  column_rows (JObj column_types) (JObj missing_counts)
  = Ok (table_of column_types missing_counts).
Proof.
  unfold column_rows, table_of; simpl.
  now apply map_each_pure.
Qed.

Lemma dropped_body_sequence (dropped_columns : list jsval) :
  dropped_body (JArr dropped_columns) = Ok (dropped_of dropped_columns).
Proof.
  unfold dropped_body.
  rewrite get_present by reflexivity; cbn [bind get_own String.eqb Ascii.eqb Bool.eqb].
  rewrite gt0_of_nat; simpl.
  destruct dropped_columns as [|col cols]; [reflexivity|].
  cbn [List.length Nat.ltb Nat.leb Array_map dropped_of].
  now rewrite (map_each_pure _ li).
Qed.

Lemma chart_slot_sequence (series : list jsval) :
  chart_slot (JArr series) = Ok (chart_of series).
Proof.
  unfold chart_slot.
  rewrite get_present by reflexivity; cbn [bind get_own String.eqb Ascii.eqb Bool.eqb].
  rewrite gt0_of_nat; simpl.
  now destruct series.
Qed.

(** What the component returns for a report of the expected shape. *)
Lemma ReportView_present (report : jsval)
  (column_types missing_counts : list (string * jsval))
  (dropped_columns : list jsval) :
  Present report column_types missing_counts dropped_columns ->
  ReportView report
  = Ok (Dashboard
          (Summary (get_own report "rows") (get_own report "columns")
                   (js_or (get_own report "detected_target") (JStr "None"))
                   (get_own report "cleaned_path")
                   (get_own report "model_path"))
          (ColumnInfo (table_of column_types missing_counts))
          (DroppedColumns (dropped_of dropped_columns))
          (chart_of (FeatureSeries (get_own report "model_metrics")))).
Proof.
  intros [Ht Hct Hmc Hdc Hmm]; unfold ReportView.
  rewrite Ht; cbn [negb].
  rewrite (featureData_series _ Hmm); cbn [bind].
  rewrite Hct, Hmc, column_rows_mappings; cbn [bind].
  rewrite Hdc, dropped_body_sequence; cbn [bind].
  now rewrite chart_slot_sequence.
Qed.

End Evaluation.

(** ** The tags of the panels *)

Lemma tags_rows (type missing : string -> member jsval) (keys : list string) :
  flat_map tags (map (fun col => column_row col (type col) (missing col)) keys)
  = flat_map (fun _ => ["tr"; "td"; "td"; "td"]) keys.
Proof.
  induction keys as [|col keys IH]; [reflexivity|].
  cbn [map flat_map]; rewrite IH.
  now destruct (type col), (missing col).
Qed.

Lemma tags_table_of (column_types missing_counts : list (string * jsval)) :
  flat_map tags (table_of column_types missing_counts)
  = flat_map (fun _ => ["tr"; "td"; "td"; "td"])
      (OwnPropertyKeys (map fst column_types)).
Proof. unfold table_of; apply tags_rows. Qed.

Lemma tags_items (dropped_columns : list jsval) :
  flat_map tags (map li dropped_columns) = map (fun _ => "li") dropped_columns.
Proof.
  induction dropped_columns as [|col cols IH]; [reflexivity|].
  cbn [map flat_map]; rewrite IH; reflexivity.
Qed.

Lemma tags_dropped_of (dropped_columns : list jsval) :
  tags (dropped_of dropped_columns)
  = match dropped_columns with
    | [] => ["p"]
    | _ :: _ => "ul" :: map (fun _ => "li") dropped_columns
    end.
Proof.
  destruct dropped_columns as [|col cols]; [reflexivity|].
  unfold dropped_of, dropped_list; cbn [tags flat_map].
  now rewrite tags_items, app_nil_r.
Qed.

Lemma filter_rows_nil (tag : string) (keys : list string) :
  tag <> "tr" -> tag <> "td" ->
  filter (String.eqb tag)
    (flat_map (fun _ => ["tr"; "td"; "td"; "td"]) keys) = [].
Proof.
  intros Htr Htd.
  apply String.eqb_neq in Htr, Htd.
  induction keys as [|col keys IH]; [reflexivity|].
  cbn [flat_map app filter]; now rewrite Htr, Htd.
Qed.

Lemma filter_items_nil (tag : string) (dropped_columns : list jsval) :
  tag <> "li" ->
  filter (String.eqb tag) (map (fun _ => "li") dropped_columns) = [].
Proof.
  intros Hli; apply String.eqb_neq in Hli.
  induction dropped_columns as [|col cols IH]; [reflexivity|].
  cbn [map filter]; now rewrite Hli.
Qed.

(** The tags of the view of a report, panel by panel. *)
Lemma tags_Dashboard (summary table dropped chart : node jsval) :
  tags (Dashboard summary table dropped chart)
  = "div" :: tags summary ++ tags table ++ tags dropped ++ tags chart.
Proof. unfold Dashboard; cbn [tags flat_map]; now rewrite app_nil_r. Qed.

Lemma count_tag_Dashboard (tag : string) (summary table dropped chart : node jsval) :
  tag <> "div" ->
  count_tag tag (Dashboard summary table dropped chart)
  = count_tag tag summary + count_tag tag table
    + count_tag tag dropped + count_tag tag chart.
Proof.
  intros Hdiv; apply String.eqb_neq in Hdiv.
  unfold count_tag; rewrite tags_Dashboard; cbn [filter]; rewrite Hdiv.
  rewrite !filter_app, !length_app; lia.
Qed.

Lemma tags_ColumnInfo (rows : list (node jsval)) :
  tags (ColumnInfo rows)
  = ["Card"; "CardContent"; "h2"; "table"; "thead"; "tr"; "th"; "th"; "th";
     "tbody"] ++ flat_map tags rows.
Proof.
  unfold ColumnInfo, Card; cbn [tags flat_map app]; now rewrite !app_nil_r.
Qed.

Lemma tags_DroppedColumns (body : node jsval) :
  tags (DroppedColumns body) = ["Card"; "CardContent"; "h2"] ++ tags body.
Proof.
  unfold DroppedColumns, Card; cbn [tags flat_map app]; now rewrite !app_nil_r.
Qed.

Lemma count_tag_ColumnInfo (tag : string)
  (column_types missing_counts : list (string * jsval)) :
  tag <> "tr" -> tag <> "td" ->
  count_tag tag (ColumnInfo (table_of column_types missing_counts))
  = count_tag tag (ColumnInfo ([] : list (node jsval))).
Proof.
  intros Htr Htd; unfold count_tag.
  rewrite !tags_ColumnInfo, !filter_app, tags_table_of.
  now rewrite filter_rows_nil.
Qed.

Lemma count_tag_DroppedColumns (tag : string) (dropped_columns : list jsval) :
  tag <> "li" -> tag <> "ul" -> tag <> "p" ->
  count_tag tag (DroppedColumns (dropped_of dropped_columns))
  = count_tag tag (DroppedColumns (Val JUndefined)).
Proof.
  intros Hli Hul Hp; unfold count_tag.
  rewrite !tags_DroppedColumns, !filter_app, tags_dropped_of.
  apply String.eqb_neq in Hul, Hp.
  destruct dropped_columns as [|col cols]; cbn [filter tags].
  - now rewrite Hp.
  - now rewrite Hul, filter_items_nil.
Qed.

Lemma In_count_tag (tag : string) (view : node jsval) :
  In tag (tags view) <-> 0 < count_tag tag view.
Proof.
  unfold count_tag; induction (tags view) as [|t ts IH]; cbn [In filter].
  - split; [contradiction | inversion 1].
  - destruct (String.eqb_spec tag t) as [->|Hne]; cbn [List.length].
    + split; [lia | now left].
    + rewrite <- IH; split; [intros [H|H]; congruence | now right].
Qed.

(** The number of elements with a given tag in the view of a report of the
    expected shape, for a tag that the table rows and the list of dropped
    columns do not use. *)
Lemma count_tag_present (tag : string) (summary : node jsval)
  (column_types missing_counts : list (string * jsval))
  (dropped_columns series : list jsval) :
  tag <> "div" -> tag <> "tr" -> tag <> "td" ->
  tag <> "li" -> tag <> "ul" -> tag <> "p" ->
  count_tag tag
    (Dashboard summary
       (ColumnInfo (table_of column_types missing_counts))
       (DroppedColumns (dropped_of dropped_columns))
       (chart_of series))
  = count_tag tag summary + count_tag tag (ColumnInfo ([] : list (node jsval)))
    + count_tag tag (DroppedColumns (Val JUndefined))
    + count_tag tag (chart_of series).
Proof.
  intros Hdiv Htr Htd Hli Hul Hp.
  rewrite count_tag_Dashboard by assumption.
  now rewrite count_tag_ColumnInfo, count_tag_DroppedColumns by assumption.
Qed.

(** ** The feature series *)

(** C1. For a report whose [model_metrics.feature_importances] is a
    sequence of records, the feature series has one
    [{name: feature, importance: importance}] per item, the same length as
    the input and the same order, the values untouched; without
    [model_metrics] the series is empty. *)
Theorem featureData_maps_every_item (report : jsval) :
  (forall items,
      is_nullish (get_own report "model_metrics") = false ->
      get_own (get_own report "model_metrics") "feature_importances" = JArr items ->
      Forall (fun item => is_nullish item = false) items ->
      exists series,
        featureData (get_own report "model_metrics") = Ok (JArr series)
        /\ series = map FeatureSeries_item items
        /\ List.length series = List.length items
        /\ (forall i item, nth_error items i = Some item ->
                           nth_error series i = Some (FeatureSeries_item item)))
  /\ (forall feature importance,
         FeatureSeries_item (JObj [("feature", feature); ("importance", importance)])
         = JObj [("name", feature); ("importance", importance)])
  /\ (is_nullish (get_own report "model_metrics") = true ->
      featureData (get_own report "model_metrics") = Ok (JArr [])).
Proof.
  split; [|split].
  - intros items Hmm Hfi Hitems.
    exists (map FeatureSeries_item items).
    repeat split.
    + unfold featureData, feature_chain.
      rewrite Hmm, Hfi; cbn [is_nullish Array_map].
      rewrite (map_each_pure _ FeatureSeries_item); [reflexivity|].
      intros item Hin; apply feature_item_present.
      rewrite Forall_forall in Hitems; now apply Hitems.
    + apply length_map.
    + intros i item Hi; now rewrite nth_error_map, Hi.
  - reflexivity.
  - intros Hmm; unfold featureData, feature_chain; now rewrite Hmm.
Qed.

(** ** The report guard *)

(** C2. For an absent report ([null] or [undefined]) the component returns
    exactly the empty-state view, which holds the message and none of the
    panels. *)
Theorem absent_report_gives_empty_state {RT : Runtime} (report : jsval) :
  is_nullish report = true ->
  ReportView report = Ok empty_state
  /\ (empty_state : node jsval)
     = Elem "div" [className "text-center text-gray-500 mt-10"]
         [Elem "p" []
            [Text "No report data available yet. Upload a dataset first!"]]
  /\ panels (empty_state : node jsval) = 0.
Proof.
  intros H; repeat split.
  destruct report; try discriminate H; reflexivity.
Qed.

(** C10. The guard takes every falsy report for an absent one: [0], NaN,
    the empty string and [false] give the empty-state view as [null] and
    [undefined] do. *)
Theorem falsy_report_gives_empty_state {RT : Runtime} (report : jsval) :
  truthy report = false -> ReportView report = Ok empty_state.
Proof. intros H; unfold ReportView; now rewrite H. Qed.

(** ** The panels *)

(** C3. For a present report the chart panel is rendered exactly when the
    feature series is not empty; for an empty series the fourth slot of
    the view holds [false], which displays nothing, and the view has the
    three other panels only. *)
Theorem chart_panel_iff_series_nonempty {RT : Runtime} (report : jsval)
  (column_types missing_counts : list (string * jsval))
  (dropped_columns : list jsval) :
  Present report column_types missing_counts dropped_columns ->
  exists series view,
    featureData (get_own report "model_metrics") = Ok (JArr series)
    /\ ReportView report = Ok view
    /\ (nth_error (slots view) 3 = Some (FeatureChart (JArr series))
        <-> 0 < List.length series)
    /\ (In "BarChart" (tags view) <-> 0 < List.length series)
    /\ (0 < List.length series -> panels view = 4)
    /\ (List.length series = 0 ->
        nth_error (slots view) 3 = Some (Val (JBool false))
        /\ panels view = 3).
Proof.
  intros HP.
  exists (FeatureSeries (get_own report "model_metrics")).
  eexists; split; [apply featureData_series, HP|].
  split; [apply (ReportView_present _ _ _ _ HP)|].
  generalize (FeatureSeries (get_own report "model_metrics")); intros series.
  assert (Hcount : forall tag,
             tag = "BarChart" \/ tag = "Card" ->
             count_tag tag
               (Dashboard
                  (Summary (get_own report "rows") (get_own report "columns")
                     (js_or (get_own report "detected_target") (JStr "None"))
                     (get_own report "cleaned_path")
                     (get_own report "model_path"))
                  (ColumnInfo (table_of column_types missing_counts))
                  (DroppedColumns (dropped_of dropped_columns))
                  (chart_of series))
             = (if String.eqb tag "Card" then 3 else 0)
               + count_tag tag (chart_of series)).
  { intros tag [-> | ->]; rewrite count_tag_present by discriminate;
      reflexivity. }
  split; [|split; [|split]].
  - cbn [slots Dashboard nth_error].
    destruct series; cbn [chart_of List.length]; split;
      try discriminate; try reflexivity; lia.
  - rewrite In_count_tag, Hcount by now left.
    destruct series; cbn [List.length String.eqb Ascii.eqb Bool.eqb chart_of];
      [cbn; lia | cbn; lia].
  - intros Hlen; unfold panels; rewrite Hcount by now right.
    destruct series; [inversion Hlen | reflexivity].
  - intros Hlen; destruct series; [|discriminate Hlen].
    split; [reflexivity|].
    unfold panels; rewrite Hcount by (now right).
    reflexivity.
Qed.

(** C4, as the code has it.  A present report without [dropped_columns]
    is not given an empty sequence in its place: reading the [length] of
    the absent value raises [TypeError], no view is returned, and so no
    affirmation either. *)
Theorem absent_dropped_columns_throws {RT : Runtime} (report : jsval) :
  truthy report = true ->
  is_nullish (get_own report "dropped_columns") = true ->
  dropped_body (get_own report "dropped_columns") = Throw TypeError
  /\ ReportView report = Throw TypeError.
Proof.
  intros Ht Hdc.
  assert (Hbody : dropped_body (get_own report "dropped_columns")
                  = Throw TypeError).
  { unfold dropped_body; now rewrite get_absent. }
  split; [exact Hbody|].
  unfold ReportView; rewrite Ht; cbn [negb].
  destruct (featureData _) as [series|e]; cbn [bind];
    [|apply throw_TypeError].
  destruct (column_rows _ _) as [table_rows|e]; cbn [bind];
    [|apply throw_TypeError].
  now rewrite Hbody.
Qed.

(** The readings of the table and of the panel of dropped columns in the
    view of a report. *)
Lemma at_path_table_body (summary dropped chart : node jsval)
  (rows : list (node jsval)) :
  at_path [1; 0; 1; 1] (Dashboard summary (ColumnInfo rows) dropped chart)
  = Some (Elem "tbody" [] [Arr rows]).
Proof. reflexivity. Qed.

Lemma object_member_own (props : list (string * jsval)) (k : string) :
  In k (map fst props) ->
  object_member props k = Own (get_own (JObj props) k).
Proof.
  intros Hin; destruct (assoc_In _ _ Hin) as [v Hv].
  unfold object_member; cbn [get_own]; now rewrite Hv.
Qed.

(** A row of the table of a report, element by element. *)
Lemma table_of_rows (column_types missing_counts : list (string * jsval)) :
  table_of column_types missing_counts
  = map (fun col =>
           Elem "tr" [("key", JStr col)]
             [Elem "td" [("className", JStr "border p-2")] [Val (JStr col)];
              Elem "td" [("className", JStr "border p-2")]
                [Val (get_own (JObj column_types) col)];
              Elem "td" [("className", JStr "border p-2")]
                [match assoc col missing_counts with
                 | Some count => Val count
                 | None =>
                     if Object_prototype_has col then Inherited col
                     else Val JUndefined
                 end]])
        (OwnPropertyKeys (map fst column_types)).
Proof.
  unfold table_of; apply map_ext_in; intros col Hin.
  apply (proj1 (OwnPropertyKeys_In _ _)) in Hin.
  rewrite (object_member_own _ _ Hin).
  unfold column_row, td, cell, shown, className, object_member;
    cbn [lit_string jsval_literals].
  destruct (assoc col missing_counts); [reflexivity|].
  now destruct (Object_prototype_has col).
Qed.


(** C5, as the code has it.  For a present report the column table has
    exactly one row per key of [column_types], whatever [rows] and
    [columns] are, in the order of [Object.keys]: the keys that are array
    indices come first, by ascending index, and the other keys follow in
    the order in which they were added.  The rows are in insertion order
    when no key is an array index; without keys the body of the table is
    empty and the table has its header only. *)
Theorem column_table_one_row_per_key {RT : Runtime} (report : jsval)
  (column_types missing_counts : list (string * jsval))
  (dropped_columns : list jsval) :
  Present report column_types missing_counts dropped_columns ->
  NoDup (map fst column_types) ->
  exists view keys indices,
    ReportView report = Ok view
    /\ Object_keys (get_own report "column_types") = Ok keys
    /\ at_path [1; 0; 1; 1] view
       = Some
           (Elem "tbody" []
              [Arr
                 (map (fun col =>
                         Elem "tr" [("key", JStr col)]
                           [Elem "td" [("className", JStr "border p-2")]
                              [Val (JStr col)];
                            Elem "td" [("className", JStr "border p-2")]
                              [Val (get_own (JObj column_types) col)];
                            Elem "td" [("className", JStr "border p-2")]
                              [match assoc col missing_counts with
                               | Some count => Val count
                               | None =>
                                   if Object_prototype_has col
                                   then Inherited col
                                   else Val JUndefined
                               end]])
                      keys)])
    /\ Permutation keys (map fst column_types)
    /\ NoDup keys
    /\ keys
       = map snd indices
         ++ filter (fun k => negb (is_array_index k)) (map fst column_types)
    /\ Sorted (fun a b => (fst a <= fst b)%N) indices
    /\ (forall n k, In (n, k) indices -> array_index k = Some n)
    /\ (forallb (fun k => negb (is_array_index k)) (map fst column_types)
        = true ->
        keys = map fst column_types)
    /\ (column_types = [] ->
        at_path [1; 0; 1] view
        = Some
            (Elem "table" [("className", JStr "w-full border border-gray-300")]
               [Elem "thead" []
                  [Elem "tr" [("className", JStr "bg-gray-100")]
                     [Elem "th" [("className", JStr "border p-2 text-left")]
                        [Text "Column"];
                      Elem "th" [("className", JStr "border p-2 text-left")]
                        [Text "Type"];
                      Elem "th" [("className", JStr "border p-2 text-left")]
                        [Text "Missing Values"]]];
                Elem "tbody" [] [Arr []]])).
Proof.
  intros HP Hnodup.
  exists (Dashboard
            (Summary (get_own report "rows") (get_own report "columns")
               (js_or (get_own report "detected_target") (JStr "None"))
               (get_own report "cleaned_path") (get_own report "model_path"))
            (ColumnInfo (table_of column_types missing_counts))
            (DroppedColumns (dropped_of dropped_columns))
            (chart_of (FeatureSeries (get_own report "model_metrics")))).
  exists (OwnPropertyKeys (map fst column_types)).
  exists (sort_indices (indexed (map fst column_types))).
  split; [apply (ReportView_present _ _ _ _ HP)|].
  split; [now rewrite (present_column_types _ _ _ _ HP)|].
  split; [now rewrite at_path_table_body, table_of_rows|].
  split; [apply OwnPropertyKeys_permutation|].
  split; [now apply OwnPropertyKeys_NoDup|].
  split; [reflexivity|].
  split; [apply sort_indices_sorted|].
  split.
  - intros n k Hin; apply (indexed_index (map fst column_types)).
    eapply Permutation_in; [|exact Hin].
    symmetry; apply sort_indices_permutation.
  - split; [apply OwnPropertyKeys_plain|].
    now intros ->.
Qed.


(** C7. For a present report the panel of the dropped columns shows the
    affirmation when [dropped_columns] has length 0, and for a length of
    one or more a list with that many items, in the order of the
    sequence. *)
Theorem dropped_panel_affirmation_or_items {RT : Runtime} (report : jsval)
  (column_types missing_counts : list (string * jsval))
  (dropped_columns : list jsval) :
  Present report column_types missing_counts dropped_columns ->
  exists view,
    ReportView report = Ok view
    /\ at_path [2; 0; 0] view
       = Some (Elem "h2" [("className", JStr "text-xl font-semibold mb-4")]
                 [Text "🗑️ Dropped Columns"])
    /\ (List.length dropped_columns = 0 ->
        at_path [2; 0; 1] view
        = Some (Elem "p" [] [Text "No columns dropped ✅"]))
    /\ (1 <= List.length dropped_columns ->
        exists items,
          at_path [2; 0; 1] view
          = Some (Elem "ul" [("className", JStr "list-disc pl-6")] [Arr items])
          /\ List.length items = List.length dropped_columns
          /\ (forall i col,
                nth_error dropped_columns i = Some col ->
                nth_error items i
                = Some (Elem "li" [("key", col)] [Val col]))).
Proof.
  intros HP.
  eexists; split; [apply (ReportView_present _ _ _ _ HP)|].
  split; [reflexivity|].
  split.
  - now destruct dropped_columns.
  - intros Hlen; exists (map li dropped_columns).
    destruct dropped_columns as [|col cols]; [inversion Hlen|].
    split; [reflexivity|].
    split; [apply length_map|].
    intros i c Hi; now rewrite nth_error_map, Hi.
Qed.

(** C8. For a present report the summary panel is rendered; it shows
    [detected_target] as it is when it is truthy and the label ["None"]
    when it is missing or falsy, and it shows [rows], [columns],
    [cleaned_path] and [model_path] as they are; a field that the report
    does not have is shown as [undefined], without an error. *)
Theorem summary_shows_fields_verbatim {RT : Runtime} (report : jsval)
  (column_types missing_counts : list (string * jsval))
  (dropped_columns : list jsval) :
  Present report column_types missing_counts dropped_columns ->
  exists view target,
    ReportView report = Ok view
    /\ nth_error (slots view) 0
       = Some
           (Elem "Card" [("className", JStr "shadow-md")]
              [Elem "CardContent" [("className", JStr "p-6")]
                 [Elem "h2" [("className", JStr "text-2xl font-semibold mb-4")]
                    [Text "📊 Dataset Summary"];
                  Elem "p" []
                    [Elem "strong" [] [Text "Total Rows:"]; Text " ";
                     Val (get_own report "rows")];
                  Elem "p" []
                    [Elem "strong" [] [Text "Total Columns:"]; Text " ";
                     Val (get_own report "columns")];
                  Elem "p" []
                    [Elem "strong" [] [Text "Detected Target:"]; Text " ";
                     Val target];
                  Elem "p" []
                    [Elem "strong" [] [Text "Cleaned File:"]; Text " ";
                     Val (get_own report "cleaned_path")];
                  Elem "p" []
                    [Elem "strong" [] [Text "Model Path:"]; Text " ";
                     Val (get_own report "model_path")]]])
    /\ (truthy (get_own report "detected_target") = true ->
        target = get_own report "detected_target")
    /\ (truthy (get_own report "detected_target") = false ->
        target = JStr "None")
    /\ (forall props i field,
          report = JObj props ->
          nth_error
            ["rows"; "columns"; "detected_target"; "cleaned_path"; "model_path"]
            i = Some field ->
          field <> "detected_target" ->
          assoc field props = None ->
          at_path [0; 0; S i; 2] view = Some (Val JUndefined)).
Proof.
  intros HP.
  eexists; exists (js_or (get_own report "detected_target") (JStr "None")).
  split; [apply (ReportView_present _ _ _ _ HP)|].
  split; [reflexivity|].
  unfold js_or; split; [|split].
  - now intros ->.
  - now intros ->.
  - intros props i field -> Hfield Hother Hnone.
    do 5 (destruct i as [|i];
          [injection Hfield as <-; try (now contradiction Hother);
           cbn [at_path slots nth_error Dashboard Summary Card labelled];
           cbn [get_own]; now rewrite Hnone|]).
    now destruct i.
Qed.

(** ** The heap is only read and extended *)

Section Frame.

Lemma allocates_ret {A : Type} (a : A) : allocates (ret a).
Proof. intros h; exists []; cbn; now rewrite app_nil_r. Qed.

Lemma allocates_throw {A : Type} (e : error) : allocates (@throw A e).
Proof. intros h; exists []; cbn; now rewrite app_nil_r. Qed.

Lemma allocates_read {A : Type} (f : heap -> A) : allocates (read f).
Proof. intros h; exists []; cbn; now rewrite app_nil_r. Qed.

Lemma allocates_alloc (o : object) : allocates (alloc o).
Proof. intros h; now exists [o]. Qed.

Lemma allocates_bind {A B : Type} (m : M A) (k : A -> M B) :
  allocates m -> (forall a, allocates (k a)) -> allocates (Store.bind m k).
Proof.
  intros Hm Hk h; unfold Store.bind.
  destruct (Hm h) as [fresh Hfresh].
  destruct (m h) as [[a|e] h']; cbn in Hfresh; subst h'.
  - destruct (Hk a (h ++ fresh)) as [fresh' Hfresh'].
    exists (fresh ++ fresh'); now rewrite Hfresh', app_assoc.
  - now exists fresh.
Qed.

Lemma allocates_map_each {A B : Type} (f : A -> M B) (l : list A) :
  (forall a, allocates (f a)) -> allocates (Store.map_each f l).
Proof.
  intros Hf; induction l as [|a l IH]; cbn [Store.map_each].
  - apply allocates_ret.
  - apply allocates_bind; [apply Hf|]; intros b.
    apply allocates_bind; [exact IH|]; intros bs.
    apply allocates_ret.
Qed.

Lemma allocates_get (v : val) (k : string) : allocates (Store.get v k).
Proof.
  unfold Store.get; destruct (Store.is_nullish v);
    [apply allocates_throw | apply allocates_read].
Qed.

Lemma allocates_Object_keys (v : val) : allocates (Store.Object_keys v).
Proof.
  destruct v; cbn [Store.Object_keys];
    auto using allocates_throw, allocates_ret, allocates_read.
Qed.

Lemma allocates_Array_map {B : Type} (f : val -> M B) (v : val) :
  (forall item, allocates (f item)) -> allocates (Store.Array_map f v).
Proof.
  intros Hf h; unfold Store.Array_map.
  destruct v as [| | | | |l]; try (exists []; cbn; now rewrite app_nil_r).
  destruct (nth_error h l) as [[items|props]|];
    try (exists []; cbn; now rewrite app_nil_r).
  apply (allocates_map_each f items Hf).
Qed.

Lemma allocates_feature_item (item : val) : allocates (Store.feature_item item).
Proof.
  unfold Store.feature_item.
  apply allocates_bind; [apply allocates_get|]; intros name.
  apply allocates_bind; [apply allocates_get|]; intros importance.
  apply allocates_alloc.
Qed.

Lemma allocates_feature_chain (model_metrics : val) :
  allocates (Store.feature_chain model_metrics).
Proof.
  unfold Store.feature_chain.
  destruct (Store.is_nullish model_metrics); [apply allocates_ret|].
  apply allocates_bind; [apply allocates_get|]; intros feature_importances.
  destruct (Store.is_nullish feature_importances); [apply allocates_ret|].
  apply allocates_bind;
    [apply allocates_Array_map, allocates_feature_item|]; intros items.
  apply allocates_alloc.
Qed.

Lemma allocates_featureData (model_metrics : val) :
  allocates (Store.featureData model_metrics).
Proof.
  unfold Store.featureData.
  apply allocates_bind; [apply allocates_feature_chain|]; intros mapped.
  destruct (Store.truthy mapped); [apply allocates_ret | apply allocates_alloc].
Qed.

Context {RT : HeapRuntime}.

Lemma allocates_gt0 (v : val) : allocates (Store.gt0 v).
Proof.
  unfold Store.gt0.
  apply allocates_bind; [|intros n; apply allocates_ret].
  intros h; exists []; cbn; now rewrite app_nil_r.
Qed.

Lemma allocates_get_member (v : val) (k : string) :
  allocates (Store.get_member v k).
Proof.
  unfold Store.get_member; destruct (Store.is_nullish v);
    [apply allocates_throw | apply allocates_read].
Qed.

Lemma allocates_column_rows (column_types missing_counts : val) :
  allocates (Store.column_rows column_types missing_counts).
Proof.
  unfold Store.column_rows.
  apply allocates_bind; [apply allocates_Object_keys|]; intros keys.
  apply allocates_map_each; intros col.
  apply allocates_bind; [apply allocates_get_member|]; intros type.
  apply allocates_bind; [apply allocates_get_member|]; intros missing.
  apply allocates_ret.
Qed.

Lemma allocates_dropped_body (dropped_columns : val) :
  allocates (Store.dropped_body dropped_columns).
Proof.
  unfold Store.dropped_body.
  apply allocates_bind; [apply allocates_get|]; intros len.
  apply allocates_bind; [apply allocates_gt0|]; intros [|].
  - apply allocates_bind; [|intros items; apply allocates_ret].
    apply allocates_Array_map; intros col; apply allocates_ret.
  - apply allocates_ret.
Qed.

Lemma allocates_chart_slot (series : val) : allocates (Store.chart_slot series).
Proof.
  unfold Store.chart_slot.
  apply allocates_bind; [apply allocates_get|]; intros len.
  apply allocates_bind; [apply allocates_gt0|]; intros nonempty.
  apply allocates_ret.
Qed.

(** A render changes no cell of the heap it is given. *)
Lemma allocates_ReportView (report : val) : allocates (Store.ReportView report).
Proof.
  unfold Store.ReportView.
  destruct (negb (Store.truthy report)); [apply allocates_ret|].
  repeat (apply allocates_bind; [apply allocates_get|]; intros ?).
  apply allocates_bind; [apply allocates_featureData|]; intros series.
  apply allocates_bind; [apply allocates_column_rows|]; intros table_rows.
  apply allocates_bind; [apply allocates_dropped_body|]; intros dropped.
  apply allocates_bind; [apply allocates_chart_slot|]; intros chart.
  apply allocates_ret.
Qed.

End Frame.

(** ** What the values of a heap stand for *)

Section Representation.

Lemma nth_error_extend (h fresh : heap) (l : nat) (o : object) :
  nth_error h l = Some o -> nth_error (h ++ fresh) l = Some o.
Proof.
  intros H; rewrite nth_error_app1; [exact H|].
  apply nth_error_Some; congruence.
Qed.

Lemma repr_extend : monotone repr.
Proof.
  intros h fresh; fix IH 3.
  intros v j [ | | b | n | s | l items jitems Hl Hitems
             | l props jprops Hl Hprops ]; try constructor.
  - apply repr_array with items; [now apply nth_error_extend|].
    clear Hl; revert items jitems Hitems; fix IHitems 3.
    intros items jitems [|item jitem items' jitems' Hitem Hrest];
      constructor; [apply IH, Hitem | apply IHitems, Hrest].
  - apply repr_object with props; [now apply nth_error_extend|].
    clear Hl; revert props jprops Hprops; fix IHprops 3.
    intros props jprops [|p q props' jprops' [Hkey Hval] Hrest];
      constructor; [split; [exact Hkey | apply IH, Hval] | apply IHprops, Hrest].
Qed.

Lemma repr_is_nullish (h : heap) (v : val) (j : jsval) :
  repr h v j -> Store.is_nullish v = is_nullish j.
Proof. now destruct 1. Qed.

Lemma repr_truthy (h : heap) (v : val) (j : jsval) :
  repr h v j -> Store.truthy v = truthy j.
Proof. now destruct 1. Qed.

Lemma repr_assoc (h : heap) (k : string) (props : list (string * val))
  (jprops : list (string * jsval)) :
  Forall2 (fun p q => fst p = fst q /\ repr h (snd p) (snd q)) props jprops ->
  repr h (match assoc k props with Some x => x | None => VUndefined end)
         (match assoc k jprops with Some x => x | None => JUndefined end).
Proof.
  induction 1 as [|[k1 v1] [k2 v2] props jprops [Hkey Hval] _ IH];
    cbn [assoc]; [constructor|].
  cbn in Hkey, Hval; subst k2.
  now destruct (k1 =? k).
Qed.

Lemma repr_nth (h : heap) (items : list val) (jitems : list jsval) (i : nat) :
  Forall2 (repr h) items jitems ->
  repr h (nth i items VUndefined) (nth i jitems JUndefined).
Proof.
  intros H; revert i; induction H as [|item jitem items jitems Hitem _ IH];
    intros [|i]; cbn [nth]; auto using repr_undefined.
Qed.

Lemma repr_get_own (h : heap) (v : val) (j : jsval) (k : string) :
  repr h v j -> repr h (Store.get_own h v k) (get_own j k).
Proof.
  intros [ | | b | n | s | l items jitems Hl Hitems
         | l props jprops Hl Hprops ]; cbn [Store.get_own get_own];
    try constructor.
  - destruct (k =? "length"); [constructor|].
    destruct (index_of k (String.length s)); constructor.
  - rewrite Hl, (Forall2_length Hitems).
    destruct (k =? "length"); [constructor|].
    destruct (index_of k (List.length jitems));
      [now apply repr_nth | constructor].
  - rewrite Hl; now apply repr_assoc.
Qed.

Lemma repr_own_property (h : heap) (v : val) (j : jsval) (k : string) :
  repr h v j ->
  match Store.own_property h v k, own_property j k with
  | Some x, Some y => repr h x y
  | None, None => True
  | _, _ => False
  end.
Proof.
  intros [ | | b | n | s | l items jitems Hl Hitems
         | l props jprops Hl Hprops ];
    cbn [Store.own_property own_property]; try exact I.
  - destruct (k =? "length"); [constructor|].
    destruct (index_of k (String.length s)); cbn [option_map];
      [constructor | exact I].
  - rewrite Hl, (Forall2_length Hitems).
    destruct (k =? "length"); [constructor|].
    destruct (index_of k (List.length jitems)); cbn [option_map];
      [now apply repr_nth | exact I].
  - rewrite Hl; clear Hl.
    induction Hprops as [|[k1 v1] [k2 v2] props jprops [Hkey Hval] _ IH];
      cbn [assoc]; [exact I|].
    cbn in Hkey, Hval; subst k2.
    now destruct (k1 =? k).
Qed.

Context {RT : HeapRuntime}.

Lemma repr_inherited (h : heap) (v : val) (j : jsval) (k : string) :
  repr h v j -> Store.inherited h v k = inherited j k.
Proof.
  intros [ | | b | n | s | l items jitems Hl Hitems
         | l props jprops Hl Hprops ];
    cbn [Store.inherited inherited]; try reflexivity; now rewrite Hl.
Qed.

Lemma repr_member_of (h : heap) (v : val) (j : jsval) (k : string) :
  repr h v j ->
  member_rel (repr h) (Store.member_of h v k) (member_of j k).
Proof.
  intros H; unfold Store.member_of, member_of.
  pose proof (repr_own_property h v j k H) as Hown.
  rewrite (repr_inherited h v j k H).
  destruct (Store.own_property h v k), (own_property j k);
    try contradiction; [now constructor|].
  destruct (inherited j k); repeat constructor.
Qed.

End Representation.

(** ** The evaluation on the heap computes what the evaluation on values
    computes *)

Section Simulation.

Lemma simulates_ret {A B : Type} (R : heap -> A -> B -> Prop) (h : heap)
  (a : A) (b : B) :
  R h a b -> simulates R h (ret a) (Ok b).
Proof. intros H; exists []; cbn; now rewrite app_nil_r. Qed.

Lemma simulates_throw {A B : Type} (R : heap -> A -> B -> Prop) (h : heap)
  (e : error) :
  simulates R h (throw e) (Throw e).
Proof. exists []; cbn; now rewrite app_nil_r. Qed.

Lemma simulates_read {A B : Type} (R : heap -> A -> B -> Prop) (h : heap)
  (f : heap -> A) (b : B) :
  R h (f h) b -> simulates R h (read f) (Ok b).
Proof. intros H; exists []; cbn; now rewrite app_nil_r. Qed.

Lemma simulates_bind {A A' B B' : Type} (R : heap -> A -> A' -> Prop)
  (S : heap -> B -> B' -> Prop) (h : heap)
  (m : M A) (p : result A') (k : A -> M B) (q : A' -> result B') :
  simulates R h m p ->
  (forall fresh a a', R (h ++ fresh) a a' ->
                      simulates S (h ++ fresh) (k a) (q a')) ->
  simulates S h (Store.bind m k) (bind p q).
Proof.
  intros (fresh & Hheap & Hres) Hk; unfold simulates, Store.bind.
  destruct (m h) as [[a|e] h']; cbn in Hheap, Hres; subst h';
    destruct p as [a'|e']; cbn in Hres; try contradiction.
  - destruct (Hk fresh a a' Hres) as (fresh' & Hheap' & Hres').
    exists (fresh ++ fresh'); rewrite app_assoc; now split.
  - subst e'; now exists fresh.
Qed.

Lemma simulates_map_each {A A' B B' : Type} (R : heap -> A -> A' -> Prop)
  (S : heap -> B -> B' -> Prop) (f : A -> M B) (g : A' -> result B') :
  monotone R -> monotone S ->
  (forall h a a', R h a a' -> simulates S h (f a) (g a')) ->
  forall l l' h,
    Forall2 (R h) l l' ->
    simulates (fun h => Forall2 (S h)) h (Store.map_each f l) (map_each g l').
Proof.
  intros HR HS Hf l; induction l as [|a l IH]; intros l' h Hl;
    inversion Hl as [|? a' ? l'' Ha Hrest]; subst;
    cbn [Store.map_each map_each].
  - now apply simulates_ret.
  - eapply simulates_bind; [apply Hf, Ha|]; intros fresh b b' Hb.
    eapply simulates_bind.
    + apply IH; revert Hrest; apply Forall2_impl; intros; now apply HR.
    + intros fresh' bs bs' Hbs; apply simulates_ret with (R := fun h => Forall2 (S h)).
      constructor; [now apply HS | exact Hbs].
Qed.

Lemma simulates_get (h : heap) (v : val) (j : jsval) (k : string) :
  repr h v j -> simulates repr h (Store.get v k) (get j k).
Proof.
  intros H; unfold Store.get, get.
  rewrite (repr_is_nullish _ _ _ H).
  destruct (is_nullish j); [apply simulates_throw|].
  apply simulates_read with (R := repr); now apply repr_get_own.
Qed.

Lemma simulates_Object_keys (h : heap) (v : val) (j : jsval) :
  repr h v j ->
  simulates (fun _ => eq) h (Store.Object_keys v) (Object_keys j).
Proof.
  intros [ | | b | n | s | l items jitems Hl Hitems
         | l props jprops Hl Hprops ]; cbn [Store.Object_keys Object_keys];
    try apply simulates_throw;
    try (apply simulates_ret with (R := fun _ => eq); reflexivity).
  - apply simulates_read with (R := fun _ => eq).
    now rewrite Hl, (Forall2_length Hitems).
  - apply simulates_read with (R := fun _ => eq).
    rewrite Hl; clear Hl; f_equal.
    induction Hprops as [|p q props jprops [Hkey _] _ IH]; cbn [map];
      [reflexivity | now rewrite Hkey, IH].
Qed.

Lemma simulates_alloc_array (h : heap) (items : list val)
  (jitems : list jsval) :
  Forall2 (repr h) items jitems ->
  simulates repr h (alloc (OArr items)) (Ok (JArr jitems)).
Proof.
  intros H; exists [OArr items]; split; [reflexivity|]; cbn.
  apply repr_array with items.
  - now rewrite nth_error_app2, Nat.sub_diag by lia.
  - revert H; apply Forall2_impl; intros; now apply repr_extend.
Qed.

Lemma simulates_alloc_object (h : heap) (props : list (string * val))
  (jprops : list (string * jsval)) :
  Forall2 (fun p q => fst p = fst q /\ repr h (snd p) (snd q)) props jprops ->
  simulates repr h (alloc (OObj props)) (Ok (JObj jprops)).
Proof.
  intros H; exists [OObj props]; split; [reflexivity|]; cbn.
  apply repr_object with props.
  - now rewrite nth_error_app2, Nat.sub_diag by lia.
  - revert H; apply Forall2_impl; intros p q [Hkey Hval]; split;
      [exact Hkey | now apply repr_extend].
Qed.

Lemma simulates_Array_map {B B' : Type} (S : heap -> B -> B' -> Prop)
  (f : val -> M B) (g : jsval -> result B') (h : heap) (v : val) (j : jsval) :
  monotone S ->
  (forall h item jitem, repr h item jitem -> simulates S h (f item) (g jitem)) ->
  repr h v j ->
  simulates (fun h => Forall2 (S h)) h (Store.Array_map f v) (Array_map g j).
Proof.
  intros HS Hf [ | | b | n | s | l items jitems Hl Hitems
               | l props jprops Hl Hprops ];
    unfold simulates, Store.Array_map; cbn [Array_map];
    try (exists []; cbn; now rewrite app_nil_r).
  - rewrite Hl.
    now apply (simulates_map_each repr S f g repr_extend HS Hf).
  - rewrite Hl; exists []; cbn; now rewrite app_nil_r.
Qed.

End Simulation.

(** ** Related views *)

Lemma node_rel_impl {V W : Type} (R R' : V -> W -> Prop) :
  (forall v w, R v w -> R' v w) ->
  forall n n', node_rel R n n' -> node_rel R' n n'.
Proof.
  intros HR; fix IH 3.
  intros n n' [s | v w Hvw | name | tag attrs attrs' cs cs' Hattrs Hcs
              | items items' Hitems]; constructor; auto.
  - revert Hattrs; apply Forall2_impl; intros a a' [Hkey Hval]; auto.
  - revert cs cs' Hcs; fix IHcs 3.
    intros cs cs' [|c c' cs0 cs0' Hc Hrest]; constructor;
      [apply IH, Hc | apply IHcs, Hrest].
  - revert items items' Hitems; fix IHitems 3.
    intros items items' [|c c' cs0 cs0' Hc Hrest]; constructor;
      [apply IH, Hc | apply IHitems, Hrest].
Qed.

Lemma node_repr_extend : monotone (fun h => node_rel (repr h)).
Proof.
  intros h fresh n n'; apply node_rel_impl; intros v w; apply repr_extend.
Qed.

Lemma nodes_repr_extend : monotone (fun h => Forall2 (node_rel (repr h))).
Proof.
  intros h fresh ns ns'; apply Forall2_impl; intros n n'; apply node_repr_extend.
Qed.

Section RelatedViews.
Context {V W : Type} {LV : Literals V} {LW : Literals W} (R : V -> W -> Prop).
Hypothesis R_string : forall s, R (lit_string s) (lit_string s).
Hypothesis R_nat : forall n, R (lit_nat n) (lit_nat n).

Ltac related :=
  repeat first [ assumption | apply R_string | apply R_nat | constructor ].

Lemma rel_empty_state : node_rel R empty_state empty_state.
Proof. unfold empty_state, className; related. Qed.

Lemma rel_Summary (rows columns target cleaned_path model_path : V)
  (rows' columns' target' cleaned_path' model_path' : W) :
  R rows rows' -> R columns columns' -> R target target' ->
  R cleaned_path cleaned_path' -> R model_path model_path' ->
  node_rel R (Summary rows columns target cleaned_path model_path)
             (Summary rows' columns' target' cleaned_path' model_path').
Proof.
  intros; unfold Summary, Card, labelled, className; related.
Qed.

Lemma rel_column_row (col : string) (type missing : member V)
  (type' missing' : member W) :
  member_rel R type type' -> member_rel R missing missing' ->
  node_rel R (column_row col type missing) (column_row col type' missing').
Proof.
  intros [type0 type0' Htype | name] [missing0 missing0' Hmissing | name'];
    unfold column_row, td, cell, shown, className; related.
Qed.

Lemma rel_ColumnInfo (rows : list (node V)) (rows' : list (node W)) :
  Forall2 (node_rel R) rows rows' ->
  node_rel R (ColumnInfo rows) (ColumnInfo rows').
Proof. intros; unfold ColumnInfo, Card, th, className; related. Qed.

Lemma rel_li (col : V) (col' : W) : R col col' -> node_rel R (li col) (li col').
Proof. intros; unfold li; related. Qed.

Lemma rel_dropped_list (items : list (node V)) (items' : list (node W)) :
  Forall2 (node_rel R) items items' ->
  node_rel R (dropped_list items) (dropped_list items').
Proof. intros; unfold dropped_list, className; related. Qed.

Lemma rel_no_columns_dropped : node_rel R no_columns_dropped no_columns_dropped.
Proof. unfold no_columns_dropped; related. Qed.

Lemma rel_DroppedColumns (body : node V) (body' : node W) :
  node_rel R body body' ->
  node_rel R (DroppedColumns body) (DroppedColumns body').
Proof. intros; unfold DroppedColumns, Card, className; related. Qed.

Lemma rel_FeatureChart (series : V) (series' : W) :
  R series series' ->
  node_rel R (FeatureChart series) (FeatureChart series').
Proof. intros; unfold FeatureChart, Card, className; related. Qed.

Lemma rel_Dashboard (summary table dropped chart : node V)
  (summary' table' dropped' chart' : node W) :
  node_rel R summary summary' -> node_rel R table table' ->
  node_rel R dropped dropped' -> node_rel R chart chart' ->
  node_rel R (Dashboard summary table dropped chart)
             (Dashboard summary' table' dropped' chart').
Proof. intros; unfold Dashboard, className; related. Qed.

End RelatedViews.

(** ** The component on the heap and on values *)

Ltac lift :=
  repeat first [ eassumption | apply repr_extend | apply node_repr_extend
               | apply nodes_repr_extend ].

(** The literals of the JSX stand for themselves. *)
Ltac literals := try solve [ intros ?; constructor ].

Lemma simulates_field (h : heap) (v : val) (j : jsval) (k : string) :
  repr h v j -> is_nullish j = false ->
  simulates (fun h x y => repr h x y /\ y = get_own j k) h
    (Store.get v k) (Ok (get_own j k)).
Proof.
  intros H Hj; unfold Store.get.
  rewrite (repr_is_nullish _ _ _ H), Hj.
  apply simulates_read with (R := fun h x y => repr h x y /\ y = get_own j k).
  split; [now apply repr_get_own | reflexivity].
Qed.

(** [x <- get v k ;; ...] on the heap against [let x := get_own j k in ...]
    on values, for a [j] that is neither [undefined] nor [null]. *)
Lemma simulates_get_let {B B' : Type} (S : heap -> B -> B' -> Prop)
  (h : heap) (v : val) (j : jsval) (name : string)
  (k : val -> M B) (q : jsval -> result B') :
  repr h v j -> is_nullish j = false ->
  (forall fresh x, repr (h ++ fresh) x (get_own j name) ->
                   simulates S (h ++ fresh) (k x) (q (get_own j name))) ->
  simulates S h (Store.bind (Store.get v name) k)
    (let field := get_own j name in q field).
Proof.
  intros H Hj Hk.
  change (simulates S h (Store.bind (Store.get v name) k)
            (bind (Ok (get_own j name)) q)).
  eapply simulates_bind; [now apply simulates_field|].
  intros fresh x y [Hx ->]; cbn [bind]; now apply Hk.
Qed.

Lemma simulates_get_apply {B B' : Type} (S : heap -> B -> B' -> Prop)
  (h : heap) (v : val) (j : jsval) (name : string)
  (k : val -> M B) (q : jsval -> result B') :
  repr h v j -> is_nullish j = false ->
  (forall fresh x, repr (h ++ fresh) x (get_own j name) ->
                   simulates S (h ++ fresh) (k x) (q (get_own j name))) ->
  simulates S h (Store.bind (Store.get v name) k) (q (get_own j name)).
Proof. exact (simulates_get_let S h v j name k q). Qed.

Lemma simulates_feature_item (h : heap) (item : val) (jitem : jsval) :
  repr h item jitem ->
  simulates repr h (Store.feature_item item) (feature_item jitem).
Proof.
  intros H; unfold Store.feature_item, feature_item.
  eapply simulates_bind; [now apply simulates_get|].
  intros fresh name jname Hname.
  eapply simulates_bind; [apply simulates_get; lift|].
  intros fresh' importance jimportance Himportance.
  apply simulates_alloc_object.
  repeat constructor; cbn; lift.
Qed.

Lemma simulates_feature_chain (h : heap) (model_metrics : val) (j : jsval) :
  repr h model_metrics j ->
  simulates repr h (Store.feature_chain model_metrics) (feature_chain j).
Proof.
  intros H; unfold Store.feature_chain, feature_chain.
  rewrite (repr_is_nullish _ _ _ H).
  destruct (is_nullish j) eqn:Hj;
    [apply simulates_ret with (R := repr); constructor|].
  apply simulates_get_apply with (q := fun fi =>
    if is_nullish fi then Ok JUndefined
    else items <- Array_map feature_item fi ;; Ok (JArr items));
    [exact H | exact Hj |].
  intros fresh fi Hfi.
  rewrite (repr_is_nullish _ _ _ Hfi).
  destruct (is_nullish (get_own j "feature_importances"));
    [apply simulates_ret with (R := repr); constructor|].
  eapply simulates_bind.
  - apply (simulates_Array_map repr); [apply repr_extend | | exact Hfi].
    intros; now apply simulates_feature_item.
  - intros fresh' items jitems Hitems; now apply simulates_alloc_array.
Qed.

Lemma simulates_featureData (h : heap) (model_metrics : val) (j : jsval) :
  repr h model_metrics j ->
  simulates repr h (Store.featureData model_metrics) (featureData j).
Proof.
  intros H; unfold Store.featureData, featureData.
  eapply simulates_bind; [now apply simulates_feature_chain|].
  intros fresh mapped jmapped Hmapped; unfold js_or.
  rewrite (repr_truthy _ _ _ Hmapped).
  destruct (truthy jmapped);
    [now apply simulates_ret with (R := repr)|].
  apply simulates_alloc_array; constructor.
Qed.

Section ComponentSimulation.
Context {RT : HeapRuntime}.

Lemma member_repr_extend : monotone (fun h => member_rel (repr h)).
Proof.
  intros h fresh m m' [v w Hvw | name]; constructor; now apply repr_extend.
Qed.

Lemma simulates_get_member (h : heap) (v : val) (j : jsval) (k : string) :
  repr h v j ->
  simulates (fun h => member_rel (repr h)) h
    (Store.get_member v k) (get_member j k).
Proof.
  intros H; unfold Store.get_member, get_member.
  rewrite (repr_is_nullish _ _ _ H).
  destruct (is_nullish j); [apply simulates_throw|].
  apply simulates_read with (R := fun h => member_rel (repr h)).
  now apply repr_member_of.
Qed.

Lemma simulates_gt0 (h : heap) (v : val) (j : jsval) :
  repr h v j -> simulates (fun _ => eq) h (Store.gt0 v) (gt0 j).
Proof.
  intros H; unfold Store.gt0, gt0.
  eapply simulates_bind with (R := fun _ => eq).
  - exists []; rewrite app_nil_r; split; [reflexivity|].
    destruct H; cbn; try reflexivity.
    + rewrite (RefToNumber_repr h l (JArr jitems));
        [now destruct (ObjectToNumber _) | now apply repr_array with items].
    + rewrite (RefToNumber_repr h l (JObj jprops));
        [now destruct (ObjectToNumber _) | now apply repr_object with props].
  - intros fresh n n' ->; now apply simulates_ret with (R := fun _ => eq).
Qed.

Lemma simulates_column_rows (h : heap) (column_types missing_counts : val)
  (jcolumn_types jmissing_counts : jsval) :
  repr h column_types jcolumn_types ->
  repr h missing_counts jmissing_counts ->
  simulates (fun h => Forall2 (node_rel (repr h))) h
    (Store.column_rows column_types missing_counts)
    (column_rows jcolumn_types jmissing_counts).
Proof.
  intros Hct Hmc; unfold Store.column_rows, column_rows.
  eapply simulates_bind; [now apply simulates_Object_keys|].
  intros fresh keys jkeys <-.
  apply simulates_map_each with
    (R := fun h col col' =>
            col = col' /\ repr h column_types jcolumn_types
            /\ repr h missing_counts jmissing_counts).
  - intros h' fresh' col col' (Hcol & Hct' & Hmc'); repeat split; lift.
  - apply node_repr_extend.
  - intros h' col col' (<- & Hct' & Hmc').
    eapply simulates_bind; [now apply simulates_get_member|].
    intros fresh1 type jtype Htype.
    eapply simulates_bind; [apply simulates_get_member; lift|].
    intros fresh2 missing jmissing Hmissing.
    apply simulates_ret with (R := fun h => node_rel (repr h)).
    apply rel_column_row; literals;
      [now apply member_repr_extend | exact Hmissing].
  - clear -Hct Hmc; induction keys; constructor; auto.
    repeat split; lift.
Qed.

Lemma simulates_dropped_body (h : heap) (dropped_columns : val) (j : jsval) :
  repr h dropped_columns j ->
  simulates (fun h => node_rel (repr h)) h
    (Store.dropped_body dropped_columns) (dropped_body j).
Proof.
  intros H; unfold Store.dropped_body, dropped_body.
  eapply simulates_bind; [now apply simulates_get|].
  intros fresh len jlen Hlen.
  eapply simulates_bind; [now apply simulates_gt0|].
  intros fresh' nonempty nonempty' <-.
  destruct nonempty.
  - eapply simulates_bind.
    + apply (simulates_Array_map (fun h => node_rel (repr h)));
        [apply node_repr_extend | | lift].
      intros h' col jcol Hcol.
      apply simulates_ret with (R := fun h => node_rel (repr h)).
      apply rel_li; exact Hcol.
    + intros fresh'' items jitems Hitems.
      apply simulates_ret with (R := fun h => node_rel (repr h)).
      apply rel_dropped_list; literals; exact Hitems.
  - apply simulates_ret with (R := fun h => node_rel (repr h)).
    apply rel_no_columns_dropped.
Qed.

Lemma simulates_chart_slot (h : heap) (series : val) (j : jsval) :
  repr h series j ->
  simulates (fun h => node_rel (repr h)) h
    (Store.chart_slot series) (chart_slot j).
Proof.
  intros H; unfold Store.chart_slot, chart_slot.
  eapply simulates_bind; [now apply simulates_get|].
  intros fresh len jlen Hlen.
  eapply simulates_bind; [now apply simulates_gt0|].
  intros fresh' nonempty nonempty' <-.
  apply simulates_ret with (R := fun h => node_rel (repr h)).
  destruct nonempty; [|repeat constructor].
  apply rel_FeatureChart; literals; lift.
Qed.

(** The destructuring of a truthy report, one read after the other. *)
Lemma ReportView_reads (report : jsval) :
  truthy report = true ->
  ReportView report
  = (cleaned_path <- get report "cleaned_path" ;;
     column_types <- get report "column_types" ;;
     columns <- get report "columns" ;;
     datetime_columns <- get report "datetime_columns" ;;
     detected_target <- get report "detected_target" ;;
     dropped_columns <- get report "dropped_columns" ;;
     missing_counts <- get report "missing_counts" ;;
     model_metrics <- get report "model_metrics" ;;
     model_path <- get report "model_path" ;;
     rows <- get report "rows" ;;
     series <- featureData model_metrics ;;
     table_rows <- column_rows column_types missing_counts ;;
     dropped <- dropped_body dropped_columns ;;
     chart <- chart_slot series ;;
     Ok (Dashboard
           (Summary rows columns (js_or detected_target (JStr "None"))
                    cleaned_path model_path)
           (ColumnInfo table_rows)
           (DroppedColumns dropped)
           chart)).
Proof.
  intros Ht; unfold ReportView; rewrite Ht.
  now rewrite !get_present by now apply truthy_not_nullish.
Qed.

(** On a heap in which [report] stands for [j], the component returns a
    view that stands for the view of [j], or throws as the component
    does on [j]. *)
Lemma simulates_ReportView (h : heap) (report : val) (j : jsval) :
  repr h report j ->
  simulates (fun h => node_rel (repr h)) h
    (Store.ReportView report) (ReportView j).
Proof.
  intros H; destruct (truthy j) eqn:Ht.
  - rewrite (ReportView_reads j Ht); unfold Store.ReportView.
    rewrite (repr_truthy _ _ _ H), Ht; cbv beta iota delta [negb].
    eapply simulates_bind; [apply simulates_get; lift|].
    intros f1 cleaned_path jcleaned_path Hcp.
    eapply simulates_bind; [apply simulates_get; lift|].
    intros f2 column_types jcolumn_types Hct.
    eapply simulates_bind; [apply simulates_get; lift|].
    intros f3 columns jcolumns Hcols.
    eapply simulates_bind; [apply simulates_get; lift|].
    intros f4 datetime_columns jdatetime_columns Hdt.
    eapply simulates_bind; [apply simulates_get; lift|].
    intros f5 detected_target jdetected_target Htarget.
    eapply simulates_bind; [apply simulates_get; lift|].
    intros f6 dropped_columns jdropped_columns Hdc.
    eapply simulates_bind; [apply simulates_get; lift|].
    intros f7 missing_counts jmissing_counts Hmc.
    eapply simulates_bind; [apply simulates_get; lift|].
    intros f8 model_metrics jmodel_metrics Hmm.
    eapply simulates_bind; [apply simulates_get; lift|].
    intros f9 model_path jmodel_path Hmp.
    eapply simulates_bind; [apply simulates_get; lift|].
    intros f10 rows jrows Hrows.
    eapply simulates_bind; [apply simulates_featureData; lift|].
    intros f11 series jseries Hseries.
    eapply simulates_bind; [apply simulates_column_rows; lift|].
    intros f12 table_rows jtable_rows Htable.
    eapply simulates_bind; [apply simulates_dropped_body; lift|].
    intros f13 dropped jdropped Hdropped.
    eapply simulates_bind; [apply simulates_chart_slot; lift|].
    intros f14 chart jchart Hchart.
    apply simulates_ret with (R := fun h => node_rel (repr h)).
    apply rel_Dashboard; literals.
    + apply rel_Summary; literals; [lift | lift | | lift | lift].
      unfold js_or; rewrite <- (repr_truthy _ _ _ Htarget).
      destruct (Store.truthy detected_target); [lift | constructor].
    + apply rel_ColumnInfo; literals; lift.
    + apply rel_DroppedColumns; literals; lift.
    + exact Hchart.
  - unfold Store.ReportView, ReportView.
    rewrite (repr_truthy _ _ _ H), Ht; cbv beta iota delta [negb].
    apply simulates_ret with (R := fun h => node_rel (repr h)).
    apply rel_empty_state; literals.
Qed.

End ComponentSimulation.

(** ** The feature series is a new array at every render *)

Lemma bind_returns {A B : Type} (m : M A) (k : A -> M B) (h h' : heap) (b : B) :
  Store.bind m k h = (Ok b, h') ->
  exists a h1, m h = (Ok a, h1) /\ k a h1 = (Ok b, h').
Proof.
  unfold Store.bind; destruct (m h) as [[a|e] h1]; [|discriminate].
  intros H; now exists a, h1.
Qed.

Lemma get_returns (v x : val) (k : string) (h h' : heap) :
  Store.get v k h = (Ok x, h') -> h' = h.
Proof.
  unfold Store.get, throw, read; destruct (Store.is_nullish v); congruence.
Qed.

Lemma allocates_length {A : Type} (m : M A) (h h' : heap) (r : result A) :
  allocates m -> m h = (r, h') -> List.length h <= List.length h'.
Proof.
  intros Hm Hrun; destruct (Hm h) as [fresh Hfresh].
  rewrite Hrun in Hfresh; cbn in Hfresh; subst h'.
  rewrite length_app; lia.
Qed.

(** The optional chain returns [undefined] or a cell that was not there. *)
Lemma feature_chain_returns (model_metrics v : val) (h h' : heap) :
  Store.feature_chain model_metrics h = (Ok v, h') ->
  v = VUndefined
  \/ exists l, v = VRef l /\ List.length h <= l < List.length h'.
Proof.
  unfold Store.feature_chain.
  destruct (Store.is_nullish model_metrics); [intros [= <- _]; now left|].
  intros H; apply bind_returns in H as (fi & h1 & Hget & H).
  apply get_returns in Hget; subst h1.
  destruct (Store.is_nullish fi); [injection H as <- _; now left|].
  apply bind_returns in H as (items & h2 & Hmap & H).
  injection H as <- <-; right; eexists; split; [reflexivity|].
  pose proof (allocates_length _ _ _ _
                (allocates_Array_map Store.feature_item fi
                   allocates_feature_item) Hmap) as Hlen.
  rewrite length_app; cbn; lia.
Qed.

Lemma featureData_returns (model_metrics v : val) (h h' : heap) :
  Store.featureData model_metrics h = (Ok v, h') ->
  exists l, v = VRef l /\ List.length h <= l < List.length h'.
Proof.
  unfold Store.featureData.
  intros H; apply bind_returns in H as (mapped & h1 & Hchain & H).
  pose proof (allocates_length _ _ _ _
                (allocates_feature_chain model_metrics) Hchain) as Hlen.
  destruct (feature_chain_returns _ _ _ _ Hchain) as [-> | (l & -> & Hl)].
  - cbn in H; injection H as <- <-.
    eexists; split; [reflexivity|]; rewrite length_app; cbn; lia.
  - cbn in H; injection H as <- <-; now exists l.
Qed.

Section Fresh.
Context {RT : HeapRuntime}.
#[local] Existing Instance Store.val_literals.

Lemma chart_slot_returns (series : val) (chart : node val) (h h' : heap) :
  Store.chart_slot series h = (Ok chart, h') ->
  chart = FeatureChart series \/ chart = Val (VBool false).
Proof.
  unfold Store.chart_slot.
  intros H; apply bind_returns in H as (len & h1 & _ & H).
  apply bind_returns in H as ([|] & h2 & _ & H);
    injection H as <- _; auto.
Qed.

(** In a view that has a chart, the data of the chart is a cell that the
    render allocated. *)
Lemma ReportView_series_fresh (report : val) (view : node val) (h h' : heap)
  (l : nat) :
  Store.ReportView report h = (Ok view, h') ->
  nth_error (slots view) 3 = Some (FeatureChart (VRef l)) ->
  List.length h <= l < List.length h'.
Proof.
  unfold Store.ReportView.
  destruct (negb (Store.truthy report)); [intros [= <- _]; discriminate|].
  intros H.
  do 10 (apply bind_returns in H as (? & ? & Hget & H);
         apply get_returns in Hget; subst).
  apply bind_returns in H as (series & h1 & Hseries & H).
  apply bind_returns in H as (table_rows & h2 & Hrows & H).
  apply bind_returns in H as (dropped & h3 & Hdropped & H).
  apply bind_returns in H as (chart & h4 & Hchart & H).
  injection H as <- <-; cbn [slots Dashboard nth_error].
  intros [= Heq].
  destruct (featureData_returns _ _ _ _ Hseries) as (l0 & -> & Hl0).
  destruct (chart_slot_returns _ _ _ _ Hchart) as [-> | ->];
    [|discriminate Heq].
  injection Heq as ->.
  pose proof (allocates_length _ _ _ _ (allocates_column_rows _ _) Hrows).
  pose proof (allocates_length _ _ _ _ (allocates_dropped_body _) Hdropped).
  pose proof (allocates_length _ _ _ _ (allocates_chart_slot _) Hchart).
  lia.
Qed.

(** C9. A render is a function of what the report stands for.  Whatever
    the heap and the report, a render leaves every cell of the heap as it
    was and only adds cells.  When the report stands for a value, it
    stands for the same value after the render, and the view that is
    returned stands for the view of that value, so that two renders of
    reports that stand for the same value, in any two heaps, return views
    that stand for the same view, or both throw.  The data of the chart is
    an array that the render allocated: it is not a cell of the heap it
    was given. *)
Theorem render_is_pure (h : heap) (report : val) :
  exists fresh,
    snd (Store.ReportView report h) = h ++ fresh
    /\ (forall l o, nth_error h l = Some o ->
                    nth_error (h ++ fresh) l = Some o)
    /\ (forall j,
          repr h report j ->
          repr (h ++ fresh) report j
          /\ result_rel (node_rel (repr (h ++ fresh)))
               (fst (Store.ReportView report h)) (ReportView j))
    /\ (forall j h2 report2,
          repr h report j -> repr h2 report2 j ->
          exists out,
            result_rel (node_rel (repr (snd (Store.ReportView report h))))
              (fst (Store.ReportView report h)) out
            /\ result_rel (node_rel (repr (snd (Store.ReportView report2 h2))))
                 (fst (Store.ReportView report2 h2)) out)
    /\ (forall view l,
          fst (Store.ReportView report h) = Ok view ->
          nth_error (slots view) 3 = Some (FeatureChart (VRef l)) ->
          List.length h <= l < List.length (h ++ fresh)).
Proof.
  destruct (allocates_ReportView report h) as [fresh Hfresh].
  assert (Hsim : forall h0 v j, repr h0 v j ->
            result_rel (node_rel (repr (snd (Store.ReportView v h0))))
              (fst (Store.ReportView v h0)) (ReportView j)).
  { intros h0 v j Hj.
    destruct (simulates_ReportView h0 v j Hj) as (fresh0 & Hheap & Hres).
    now rewrite Hheap. }
  exists fresh; split; [exact Hfresh|].
  split; [intros l o; apply nth_error_extend|].
  split; [|split].
  - intros j Hj; split; [now apply repr_extend|].
    rewrite <- Hfresh; now apply Hsim.
  - intros j h2 report2 Hj Hj2; exists (ReportView j); split; now apply Hsim.
  - intros view l Hview Hslot; rewrite <- Hfresh.
    apply (ReportView_series_fresh report view); [|exact Hslot].
    destruct (Store.ReportView report h) as [r h']; cbn in Hview |- *.
    now subst r.
Qed.

End Fresh.

(** ** The component on reports of any shape *)

Lemma map_each_throws {A B : Type} (f : A -> result B) (l : list A) (a : A) :
  In a l -> f a = Throw TypeError -> map_each f l = Throw TypeError.
Proof.
  induction l as [|a0 l IH]; intros Hin Hthrow; [contradiction|].
  cbn [map_each]; destruct Hin as [-> | Hin].
  - now rewrite Hthrow.
  - destruct (f a0) as [b|e]; cbn [bind]; [|apply throw_TypeError].
    now rewrite IH.
Qed.

(** What [map_each] returns is the image of the list under any function
    that the callback agrees with where it returns. *)
Lemma map_each_returns {A B : Type} (f : A -> result B) (g : A -> B)
  (l : list A) (bs : list B) :
  (forall a b, f a = Ok b -> b = g a) ->
  map_each f l = Ok bs -> bs = map g l.
Proof.
  intros Hfg; revert bs; induction l as [|a l IH]; intros bs; cbn [map_each map].
  - now intros [= <-].
  - destruct (f a) as [b|e] eqn:Hb; cbn [bind]; [|discriminate].
    destruct (map_each f l) as [bs'|e]; cbn [bind]; [|discriminate].
    intros [= <-]; f_equal; [now apply Hfg | now apply IH].
Qed.

Lemma featureData_ill_shaped (model_metrics : jsval) :
  features_ok model_metrics = false ->
  featureData model_metrics = Throw TypeError.
Proof.
  unfold features_ok, featureData, feature_chain.
  destruct (is_nullish model_metrics); [discriminate|]; cbn [orb].
  destruct (get_own model_metrics "feature_importances")
    as [| | b| n| s| items| props]; try discriminate; try reflexivity.
  intros Hitems; cbn [is_nullish Array_map].
  assert (Hex : exists item, In item items /\ is_nullish item = true).
  { clear -Hitems; induction items as [|item items IH]; [discriminate|].
    cbn [forallb] in Hitems; apply andb_false_iff in Hitems as [H|H].
    - exists item; split; [now left | now apply negb_false_iff].
    - destruct (IH H) as (i & Hin & Hi); exists i; split; [now right | exact Hi]. }
  destruct Hex as (item & Hin & Hitem).
  rewrite (map_each_throws feature_item items item Hin); [reflexivity|].
  unfold feature_item; now rewrite get_absent.
Qed.

Lemma featureData_array (model_metrics v : jsval) :
  featureData model_metrics = Ok v ->
  v = JArr (FeatureSeries model_metrics).
Proof.
  destruct (features_ok model_metrics) eqn:Hok.
  - rewrite featureData_series by exact Hok; now intros [= <-].
  - now rewrite featureData_ill_shaped.
Qed.

(** A decimal numeral is no name of a field. *)
Lemma string_of_nat_column_types (n : nat) :
  (string_of_nat n =? "column_types") = false.
Proof.
  unfold string_of_nat; destruct (Nat.to_uint n); reflexivity.
Qed.

Lemma index_of_column_types (n : nat) : index_of "column_types" n = None.
Proof.
  unfold index_of; generalize 0; induction n as [|n IH]; intros start;
    cbn [seq find]; [reflexivity|].
  now rewrite string_of_nat_column_types.
Qed.

Section AnyShape.
Context {RT : Runtime}.

(** The rows that the column table has when it has any. *)
Lemma column_rows_returns (column_types missing_counts : jsval)
  (rows : list (node jsval)) :
  column_rows column_types missing_counts = Ok rows ->
  exists keys,
    Object_keys column_types = Ok keys
    /\ rows = map (fun col => column_row col (member_of column_types col)
                                            (member_of missing_counts col)) keys.
Proof.
  unfold column_rows.
  destruct (Object_keys column_types) as [keys|e]; cbn [bind]; [|discriminate].
  intros H; exists keys; split; [reflexivity|].
  revert H; apply map_each_returns; intros col row.
  unfold get_member.
  destruct (is_nullish column_types); cbn [bind]; [discriminate|].
  destruct (is_nullish missing_counts); cbn [bind]; [discriminate|].
  now intros [= <-].
Qed.

(** The body that the panel of the dropped columns has when it has one. *)
Lemma dropped_body_returns (dropped_columns : jsval) (body : node jsval) :
  dropped_body dropped_columns = Ok body ->
  body = no_columns_dropped
  \/ exists items, dropped_columns = JArr items
                   /\ body = dropped_list (map li items).
Proof.
  unfold dropped_body.
  destruct (get dropped_columns "length") as [len|e]; cbn [bind]; [|discriminate].
  destruct (gt0 len) as [[|]|e]; cbn [bind]; try discriminate.
  - destruct dropped_columns as [| | b| n| s| items| props];
      cbn [Array_map bind]; try discriminate.
    rewrite (map_each_pure _ li) by reflexivity; cbn [bind].
    intros [= <-]; right; now exists items.
  - intros [= <-]; now left.
Qed.

(** The component on a truthy report, stage by stage. *)
Lemma ReportView_stages (report : jsval) :
  truthy report = true ->
  ReportView report
  = (series <- featureData (get_own report "model_metrics") ;;
     table_rows <- column_rows (get_own report "column_types")
                               (get_own report "missing_counts") ;;
     dropped <- dropped_body (get_own report "dropped_columns") ;;
     chart <- chart_slot series ;;
     Ok (Dashboard
           (Summary (get_own report "rows") (get_own report "columns")
                    (js_or (get_own report "detected_target") (JStr "None"))
                    (get_own report "cleaned_path")
                    (get_own report "model_path"))
           (ColumnInfo table_rows)
           (DroppedColumns dropped)
           chart)).
Proof. intros Ht; unfold ReportView; now rewrite Ht. Qed.

End AnyShape.

Section Extras.
Context {RT : Runtime}.

(** X1. On a truthy report the feature series is computed exactly when
    [model_metrics] is [undefined] or [null], or its [feature_importances]
    is [undefined] or [null], or is an array none of whose items is
    [undefined] or [null].  In every other case (a [feature_importances]
    that is not an array, the empty string included, or an item that is
    [null]) the series and the whole component throw [TypeError]. *)
Theorem featureData_returns_iff_well_shaped (report : jsval) :
  truthy report = true ->
  (features_ok (get_own report "model_metrics") = true <->
   exists series,
     featureData (get_own report "model_metrics") = Ok (JArr series))
  /\ (features_ok (get_own report "model_metrics") = false ->
      featureData (get_own report "model_metrics") = Throw TypeError
      /\ ReportView report = Throw TypeError)
  /\ (forall model_metrics b n s props,
        features_ok (JObj [("feature_importances", JBool b)]) = false
        /\ features_ok (JObj [("feature_importances", JNum n)]) = false
        /\ features_ok (JObj [("feature_importances", JStr s)]) = false
        /\ features_ok (JObj [("feature_importances", JObj props)]) = false
        /\ features_ok (JObj [("feature_importances", JArr [JNull])]) = false
        /\ (is_nullish model_metrics = true ->
            features_ok model_metrics = true)).
Proof.
  intros Ht; split; [|split].
  - split.
    + intros Hok; eexists; now apply featureData_series.
    + intros [series Hseries].
      destruct (features_ok _) eqn:Hok; [reflexivity|].
      now rewrite featureData_ill_shaped in Hseries.
  - intros Hok; split; [now apply featureData_ill_shaped|].
    now rewrite ReportView_stages, featureData_ill_shaped.
  - intros model_metrics b n s props; repeat split.
    unfold features_ok; now intros ->.
Qed.

(** X2. A truthy report without [column_types] makes the component throw
    [TypeError], whatever its other fields are.  Such are the reports
    that are not objects: a number that is not zero, [true], a string
    that is not empty and an array are truthy and have no field. *)
Theorem absent_column_types_throws (report : jsval) :
  truthy report = true ->
  (is_nullish (get_own report "column_types") = true ->
   ReportView report = Throw TypeError)
  /\ ((forall props, report <> JObj props) ->
      ReportView report = Throw TypeError).
Proof.
  intros Ht.
  assert (Habsent : is_nullish (get_own report "column_types") = true ->
                    ReportView report = Throw TypeError).
  { intros Hct; rewrite ReportView_stages by exact Ht.
    destruct (featureData _) as [series|e]; cbn [bind];
      [|apply throw_TypeError].
    unfold column_rows.
    destruct (get_own report "column_types"); try discriminate Hct;
      reflexivity. }
  split; [exact Habsent|].
  intros Hobject; apply Habsent.
  destruct report as [| | b| n| s| items| props]; try reflexivity.
  - cbn [get_own]; change ("column_types" =? "length") with false.
    now rewrite index_of_column_types.
  - cbn [get_own]; change ("column_types" =? "length") with false.
    now rewrite index_of_column_types.
  - now destruct (Hobject props).
Qed.

(** X3. [missing_counts] is read once per key of [column_types] and not
    otherwise: with a mapping without keys the view is returned, with the
    header of the table only, though [missing_counts] is absent; with one
    key or more the component throws [TypeError]. *)
Theorem absent_missing_counts_throws_iff_keys (report : jsval)
  (column_types : list (string * jsval)) (dropped_columns : list jsval) :
  truthy report = true ->
  get_own report "column_types" = JObj column_types ->
  is_nullish (get_own report "missing_counts") = true ->
  get_own report "dropped_columns" = JArr dropped_columns ->
  features_ok (get_own report "model_metrics") = true ->
  (column_types = [] ->
   ReportView report
   = Ok (Dashboard
           (Summary (get_own report "rows") (get_own report "columns")
                    (js_or (get_own report "detected_target") (JStr "None"))
                    (get_own report "cleaned_path")
                    (get_own report "model_path"))
           (ColumnInfo [])
           (DroppedColumns (dropped_of dropped_columns))
           (chart_of (FeatureSeries (get_own report "model_metrics")))))
  /\ (column_types <> [] -> ReportView report = Throw TypeError).
Proof.
  intros Ht Hct Hmc Hdc Hmm.
  rewrite ReportView_stages by exact Ht.
  rewrite (featureData_series _ Hmm), Hct, Hdc; cbn [bind].
  split.
  - intros ->; change (column_rows (JObj []) (get_own report "missing_counts"))
      with (@Ok (list (node jsval)) []); cbn [bind].
    now rewrite dropped_body_sequence, chart_slot_sequence.
  - intros Hne; unfold column_rows; cbn [Object_keys bind].
    destruct (OwnPropertyKeys (map fst column_types)) as [|col keys] eqn:Hkeys.
    + apply (f_equal (@List.length string)) in Hkeys.
      rewrite (Permutation_length (OwnPropertyKeys_permutation _)) in Hkeys.
      destruct column_types; [contradiction | discriminate].
    + cbn [map_each]; unfold get_member at 1 2.
      cbn [is_nullish bind]; now rewrite Hmc.
Qed.

(** X4. Whatever the shape of a truthy report, a view that the component
    returns is the root with the summary, the column table with one row
    per key that [Object.keys] gives for [column_types], the panel of the
    dropped columns with the affirmation or the list of the items of an
    array, and the chart of the feature series or [false], in this order;
    it has three or four panels. *)
Theorem returned_view_has_its_panels (report : jsval) (view : node jsval) :
  truthy report = true ->
  ReportView report = Ok view ->
  exists keys body,
    Object_keys (get_own report "column_types") = Ok keys
    /\ view
       = Dashboard
           (Summary (get_own report "rows") (get_own report "columns")
                    (js_or (get_own report "detected_target") (JStr "None"))
                    (get_own report "cleaned_path")
                    (get_own report "model_path"))
           (ColumnInfo
              (map (fun col =>
                      column_row col
                        (member_of (get_own report "column_types") col)
                        (member_of (get_own report "missing_counts") col))
                   keys))
           (DroppedColumns body)
           (chart_of (FeatureSeries (get_own report "model_metrics")))
    /\ (body = no_columns_dropped
        \/ exists items,
             get_own report "dropped_columns" = JArr items
             /\ body = dropped_list (map li items))
    /\ List.length (slots view) = 4
    /\ 3 <= panels view <= 4.
Proof.
  intros Ht; rewrite ReportView_stages by exact Ht.
  destruct (featureData _) as [series|e] eqn:Hseries; cbn [bind];
    [|discriminate].
  apply featureData_array in Hseries; subst series.
  destruct (column_rows _ _) as [rows|e] eqn:Hrows; cbn [bind]; [|discriminate].
  destruct (column_rows_returns _ _ _ Hrows) as (keys & Hkeys & ->).
  destruct (dropped_body _) as [body|e] eqn:Hbody; cbn [bind]; [|discriminate].
  rewrite chart_slot_sequence; cbn [bind]; intros [= <-].
  exists keys, body; split; [exact Hkeys|]; split; [reflexivity|].
  pose proof (dropped_body_returns _ _ Hbody) as Hshape.
  split; [exact Hshape|]; split; [reflexivity|].
  unfold panels; rewrite count_tag_Dashboard by discriminate.
  assert (Htable : forall rows0 : list (node jsval),
             flat_map tags rows0
             = flat_map (fun _ => ["tr"; "td"; "td"; "td"]) keys ->
             count_tag "Card" (ColumnInfo rows0) = 1).
  { intros rows0 Hrows0; unfold count_tag.
    rewrite tags_ColumnInfo, filter_app, Hrows0.
    now rewrite filter_rows_nil by discriminate. }
  rewrite Htable by apply tags_rows.
  assert (Hdropped : count_tag "Card" (DroppedColumns body) = 1).
  { unfold count_tag; rewrite tags_DroppedColumns, filter_app.
    destruct Hshape as [-> | (items & _ & ->)]; [reflexivity|].
    unfold dropped_list; cbn [tags flat_map]; rewrite app_nil_r, tags_items.
    assert (Hul : ("Card" =? "ul") = false) by reflexivity.
    cbn [filter]; rewrite Hul, filter_items_nil by discriminate.
    reflexivity. }
  rewrite Hdropped.
  destruct (FeatureSeries _); cbn; lia.
Qed.

End Extras.

Lemma assoc_entry {V : Type} (k : string) (v : V) (ps : list (string * V)) :
  NoDup (map fst ps) -> In (k, v) ps -> assoc k ps = Some v.
Proof.
  induction ps as [|[k0 v0] ps IH]; intros Hnodup Hin; [contradiction|].
  cbn [map fst] in Hnodup; inversion Hnodup as [|? ? Hfresh Hrest]; subst.
  cbn [assoc]; destruct Hin as [[= -> ->] | Hin].
  - now rewrite String.eqb_refl.
  - destruct (String.eqb_spec k0 k) as [-> | _]; [|now apply IH].
    exfalso; apply Hfresh; apply in_map_iff; now exists (k, v).
Qed.

Lemma NoDup_map_injective {A B : Type} (f : A -> B) (l : list A) :
  (forall x y, f x = f y -> x = y) -> NoDup l -> NoDup (map f l).
Proof.
  intros Hf; induction 1 as [|x l Hx _ IH]; cbn [map]; constructor; auto.
  intros Hin; apply in_map_iff in Hin as (y & Hy & Hin).
  apply Hf in Hy; now subst y.
Qed.

Section MoreExtras.
Context {RT : Runtime}.

(** The component on a report with its two mappings, up to the panel of
    the dropped columns. *)
Lemma ReportView_mappings (report : jsval)
  (column_types missing_counts : list (string * jsval)) :
  truthy report = true ->
  get_own report "column_types" = JObj column_types ->
  get_own report "missing_counts" = JObj missing_counts ->
  features_ok (get_own report "model_metrics") = true ->
  ReportView report
  = (body <- dropped_body (get_own report "dropped_columns") ;;
     Ok (Dashboard
           (Summary (get_own report "rows") (get_own report "columns")
                    (js_or (get_own report "detected_target") (JStr "None"))
                    (get_own report "cleaned_path")
                    (get_own report "model_path"))
           (ColumnInfo (table_of column_types missing_counts))
           (DroppedColumns body)
           (chart_of (FeatureSeries (get_own report "model_metrics"))))).
Proof.
  intros Ht Hct Hmc Hmm; rewrite ReportView_stages by exact Ht.
  rewrite (featureData_series _ Hmm), Hct, Hmc, column_rows_mappings.
  cbn [bind]; destruct (dropped_body _); cbn [bind]; [|reflexivity].
  now rewrite chart_slot_sequence.
Qed.

(** X5. The dropped columns are taken for a sequence by their [length]
    alone.  A number, a boolean, the empty string or an object without
    [length] in their place has no [length] above zero, and the panel
    shows the affirmation; a string that is not empty has one, and no
    [map]: the component throws [TypeError]. *)
Theorem dropped_columns_by_their_length (report : jsval)
  (column_types missing_counts : list (string * jsval)) :
  truthy report = true ->
  get_own report "column_types" = JObj column_types ->
  get_own report "missing_counts" = JObj missing_counts ->
  features_ok (get_own report "model_metrics") = true ->
  ((exists n, get_own report "dropped_columns" = JNum n)
   \/ (exists b, get_own report "dropped_columns" = JBool b)
   \/ get_own report "dropped_columns" = JStr ""
   \/ (exists props, get_own report "dropped_columns" = JObj props
                     /\ assoc "length" props = None) ->
   ReportView report
   = Ok (Dashboard
           (Summary (get_own report "rows") (get_own report "columns")
                    (js_or (get_own report "detected_target") (JStr "None"))
                    (get_own report "cleaned_path")
                    (get_own report "model_path"))
           (ColumnInfo (table_of column_types missing_counts))
           (DroppedColumns no_columns_dropped)
           (chart_of (FeatureSeries (get_own report "model_metrics")))))
  /\ (forall s, get_own report "dropped_columns" = JStr s -> s <> "" ->
                ReportView report = Throw TypeError).
Proof.
  intros Ht Hct Hmc Hmm.
  rewrite (ReportView_mappings report column_types missing_counts)
    by assumption.
  split.
  - intros [[n ->] | [[b ->] | [-> | (props & -> & Hlen)]]]; try reflexivity.
    unfold dropped_body; rewrite get_present by reflexivity.
    cbn [get_own]; now rewrite Hlen.
  - intros s -> Hs; unfold dropped_body.
    rewrite get_present by reflexivity.
    change (get_own (JStr s) "length") with (JNum (of_nat (String.length s))).
    cbn [bind]; rewrite gt0_of_nat; cbn [bind].
    destruct s as [|c s]; [contradiction | reflexivity].
Qed.

(** X6. The view is a function of nine fields of the report and of
    whether the report is truthy: two reports that agree on these give the
    same view or both throw.  [datetime_columns], which the component
    takes out of the report with the others, and any other field change
    nothing. *)
Theorem view_depends_on_fields_in_use :
  (forall report1 report2,
      truthy report1 = truthy report2 ->
      (forall field, In field fields_in_use ->
                     get_own report1 field = get_own report2 field) ->
      ReportView report1 = ReportView report2)
  /\ (forall props datetime_columns,
         ReportView (JObj (("datetime_columns", datetime_columns) :: props))
         = ReportView (JObj props)).
Proof.
  assert (Hgeneral : forall report1 report2,
             truthy report1 = truthy report2 ->
             (forall field, In field fields_in_use ->
                            get_own report1 field = get_own report2 field) ->
             ReportView report1 = ReportView report2).
  { intros report1 report2 Ht Hfields.
    destruct (truthy report2) eqn:Ht2.
    - rewrite !ReportView_stages by assumption.
      now rewrite !(Hfields _) by (cbn; tauto).
    - unfold ReportView; now rewrite Ht, Ht2. }
  split; [exact Hgeneral|].
  intros props datetime_columns; apply Hgeneral; [reflexivity|].
  intros field Hin; cbn [get_own assoc].
  destruct (String.eqb_spec "datetime_columns" field) as [<- | _];
    [|reflexivity].
  cbn in Hin; intuition discriminate.
Qed.

(** X7. The [key] of a row of the column table is the name of its column,
    so that the keys of the rows are distinct as the keys of the mapping
    are; for dropped columns that are strings, the [key] of an item of
    their list is the dropped column itself, so that the keys of the
    items are distinct exactly when no column is listed twice. *)
Theorem keys_of_rows_and_items (report : jsval)
  (column_types missing_counts : list (string * jsval))
  (names : list string) :
  Present report column_types missing_counts (map JStr names) ->
  exists view keys rows,
    ReportView report = Ok view
    /\ Object_keys (get_own report "column_types") = Ok keys
    /\ at_path [1; 0; 1; 1] view = Some (Elem "tbody" [] [Arr rows])
    /\ map key_of rows = map (fun col => Some (JStr col)) keys
    /\ (NoDup (map fst column_types) -> NoDup (map key_of rows))
    /\ (names <> [] ->
        exists items,
          at_path [2; 0; 1; 0] view = Some (Arr items)
          /\ map key_of items = map (fun name => Some (JStr name)) names
          /\ (NoDup (map key_of items) <-> NoDup names)).
Proof.
  intros HP.
  eexists; exists (OwnPropertyKeys (map fst column_types)).
  exists (table_of column_types missing_counts).
  split; [apply (ReportView_present _ _ _ _ HP)|].
  split; [now rewrite (present_column_types _ _ _ _ HP)|].
  split; [apply at_path_table_body|].
  assert (Hkeys : map key_of (table_of column_types missing_counts)
                  = map (fun col => Some (JStr col))
                      (OwnPropertyKeys (map fst column_types))).
  { unfold table_of; rewrite map_map; reflexivity. }
  split; [exact Hkeys|]; split.
  - intros Hnodup; rewrite Hkeys.
    apply NoDup_map_injective; [|now apply OwnPropertyKeys_NoDup].
    now intros col col' [= ->].
  - intros Hne; exists (map li (map JStr names)).
    destruct names as [|name names]; [contradiction|].
    split; [reflexivity|].
    assert (Hitems : map key_of (map li (map JStr (name :: names)))
                     = map (fun name => Some (JStr name)) (name :: names)).
    { rewrite !map_map; reflexivity. }
    split; [exact Hitems|].
    rewrite Hitems; split.
    + apply NoDup_map_inv.
    + apply NoDup_map_injective; now intros x y [= ->].
Qed.

(** X8. For a present report whose mappings have distinct keys, every
    entry of [column_types] has its row in the column table, which shows
    its key and its value as they are, and beside them what
    [missing_counts] gives for the same key: the value of the entry that
    it has for it; when it has none, [undefined], or the member of that
    name of [Object.prototype] when the key is the name of one.  Every
    row of the table is the row of an entry. *)
Theorem table_rows_are_the_entries (report : jsval)
  (column_types missing_counts : list (string * jsval))
  (dropped_columns : list jsval) :
  Present report column_types missing_counts dropped_columns ->
  NoDup (map fst column_types) ->
  NoDup (map fst missing_counts) ->
  exists view rows,
    ReportView report = Ok view
    /\ at_path [1; 0; 1; 1] view = Some (Elem "tbody" [] [Arr rows])
    /\ List.length rows = List.length column_types
    /\ (forall col type,
          In (col, type) column_types ->
          exists missing,
            In (Elem "tr" [("key", JStr col)]
                  [Elem "td" [("className", JStr "border p-2")]
                     [Val (JStr col)];
                   Elem "td" [("className", JStr "border p-2")] [Val type];
                   Elem "td" [("className", JStr "border p-2")] [missing]])
               rows
            /\ (forall count,
                  In (col, count) missing_counts -> missing = Val count)
            /\ (assoc col missing_counts = None ->
                Object_prototype_has col = false ->
                missing = Val JUndefined)
            /\ (assoc col missing_counts = None ->
                Object_prototype_has col = true ->
                missing = Inherited col))
    /\ (forall row,
          In row rows ->
          exists col type,
            In (col, type) column_types /\ key_of row = Some (JStr col)).
Proof.
  intros HP Hct Hmc.
  eexists; exists (table_of column_types missing_counts).
  split; [apply (ReportView_present _ _ _ _ HP)|].
  split; [apply at_path_table_body|].
  split.
  { unfold table_of; rewrite length_map.
    rewrite (Permutation_length (OwnPropertyKeys_permutation _)).
    apply length_map. }
  split.
  - intros col type Hin.
    exists (match assoc col missing_counts with
            | Some count => Val count
            | None =>
                if Object_prototype_has col then Inherited col
                else Val JUndefined
            end).
    split; [|split; [|split]].
    + rewrite table_of_rows; apply in_map_iff; exists col; split.
      * cbn [get_own]; now rewrite (assoc_entry col type column_types Hct Hin).
      * apply OwnPropertyKeys_In, in_map_iff; now exists (col, type).
    + intros count Hcount.
      now rewrite (assoc_entry col count missing_counts Hmc Hcount).
    + now intros -> ->.
    + now intros -> ->.
  - intros row Hrow; unfold table_of in Hrow.
    apply in_map_iff in Hrow as (col & <- & Hcol).
    apply OwnPropertyKeys_In, in_map_iff in Hcol as ([col' type] & <- & Hin).
    now exists col', type.
Qed.

End MoreExtras.

Lemma string_of_nat_length (n : nat) : (string_of_nat n =? "length") = false.
Proof. unfold string_of_nat; destruct (Nat.to_uint n); reflexivity. Qed.

Lemma string_of_nat_injective (n m : nat) :
  string_of_nat n = string_of_nat m -> n = m.
Proof.
  unfold string_of_nat; intros H.
  apply DecimalNat.Unsigned.to_uint_inj.
  apply (f_equal NilEmpty.uint_of_string) in H.
  rewrite !NilEmpty.usu in H; now injection H.
Qed.

(** The index that a numeral names in an array or a string that has it. *)
Lemma index_of_string_of_nat (i n : nat) :
  i < n -> index_of (string_of_nat i) n = Some i.
Proof.
  unfold index_of; intros Hi.
  assert (H : forall len start, start <= i < start + len ->
              find (fun j => string_of_nat j =? string_of_nat i) (seq start len)
              = Some i).
  { induction len as [|len IH]; intros start Hrange; [lia|].
    cbn [seq find].
    destruct (String.eqb_spec (string_of_nat start) (string_of_nat i))
      as [Heq | Hne].
    - now rewrite (string_of_nat_injective _ _ Heq).
    - apply IH.
      assert (start <> i) by (intros ->; now apply Hne).
      lia. }
  apply H; lia.
Qed.

(** A decimal numeral is no name of a member of [Object.prototype]. *)
Lemma string_of_nat_own_name (n : nat) :
  Object_prototype_has (string_of_nat n) = false.
Proof.
  unfold Object_prototype_has, string_of_nat.
  destruct (Nat.to_uint n); reflexivity.
Qed.

Section ArrayOfTypes.
Context {RT : Runtime}.

(** X11. [column_types] is taken for a mapping by its keys alone: for an
    array in its place, [Object.keys] gives the indices, and the column
    table has one row per item, which shows the index as the column and
    the item as its type; nothing is thrown. *)
Theorem column_types_as_array (report : jsval) (types : list jsval)
  (missing_counts : list (string * jsval)) (dropped_columns : list jsval) :
  truthy report = true ->
  get_own report "column_types" = JArr types ->
  get_own report "missing_counts" = JObj missing_counts ->
  get_own report "dropped_columns" = JArr dropped_columns ->
  features_ok (get_own report "model_metrics") = true ->
  ReportView report
  = Ok (Dashboard
          (Summary (get_own report "rows") (get_own report "columns")
                   (js_or (get_own report "detected_target") (JStr "None"))
                   (get_own report "cleaned_path")
                   (get_own report "model_path"))
          (ColumnInfo
             (map (fun i =>
                     column_row (string_of_nat i)
                       (Own (nth i types JUndefined))
                       (Own (get_own (JObj missing_counts) (string_of_nat i))))
                  (seq 0 (List.length types))))
          (DroppedColumns (dropped_of dropped_columns))
          (chart_of (FeatureSeries (get_own report "model_metrics")))).
Proof.
  intros Ht Hct Hmc Hdc Hmm; rewrite ReportView_stages by exact Ht.
  rewrite (featureData_series _ Hmm), Hct, Hmc, Hdc; cbn [bind].
  assert (Hrows :
    column_rows (JArr types) (JObj missing_counts)
    = Ok (map (fun i =>
                 column_row (string_of_nat i)
                   (Own (nth i types JUndefined))
                   (Own (get_own (JObj missing_counts) (string_of_nat i))))
              (seq 0 (List.length types)))).
  { unfold column_rows; cbn [Object_keys bind]; unfold index_keys.
    rewrite (map_each_pure _
               (fun col => column_row col (member_of (JArr types) col)
                             (member_of (JObj missing_counts) col)));
      [|reflexivity].
    rewrite map_map; f_equal; apply map_ext_in; intros i Hi.
    apply in_seq in Hi; unfold member_of; cbn [own_property inherited get_own].
    rewrite string_of_nat_length, index_of_string_of_nat by lia.
    cbn [option_map]; rewrite string_of_nat_own_name.
    now destruct (assoc (string_of_nat i) missing_counts). }
  rewrite Hrows; cbn [bind].
  now rewrite dropped_body_sequence, chart_slot_sequence.
Qed.

End ArrayOfTypes.

(** ** The cells of a render *)

Lemma get_runs (h : heap) (v : val) (k : string) :
  Store.is_nullish v = false ->
  Store.get v k h = (Ok (Store.get_own h v k), h).
Proof. intros H; unfold Store.get; now rewrite H. Qed.

Lemma bind_runs {A B : Type} (m : M A) (k : A -> M B) (h h' : heap) (a : A) :
  m h = (Ok a, h') -> Store.bind m k h = k a h'.
Proof. intros H; unfold Store.bind; now rewrite H. Qed.

Lemma get_own_bound (h fresh : heap) (v : val) (k : string) :
  bound h v = true -> Store.get_own (h ++ fresh) v k = Store.get_own h v k.
Proof.
  destruct v as [| | | | |l]; try reflexivity.
  cbn [bound Store.get_own]; intros Hl; apply Nat.ltb_lt in Hl.
  now rewrite nth_error_app1.
Qed.

(** The callback of the feature series over the items: one cell per item,
    after the cells there are. *)
Lemma feature_items_run (h : heap) (items : list val) :
  Forall (fun item => Store.is_nullish item = false /\ bound h item = true)
    items ->
  forall fresh,
    Store.map_each Store.feature_item items (h ++ fresh)
    = (Ok (map VRef (seq (List.length (h ++ fresh)) (List.length items))),
       (h ++ fresh) ++ map (series_cell h) items).
Proof.
  induction 1 as [|item items [Hitem Hbound] _ IH]; intros fresh.
  - cbn; now rewrite app_nil_r.
  - assert (Hrun : Store.feature_item item (h ++ fresh)
                   = (Ok (VRef (List.length (h ++ fresh))),
                      (h ++ fresh) ++ [series_cell h item])).
    { unfold Store.feature_item.
      rewrite (bind_runs _ _ _ _ _ (get_runs _ _ _ Hitem)).
      rewrite (bind_runs _ _ _ _ _ (get_runs _ _ _ Hitem)).
      unfold alloc, series_cell; now rewrite !get_own_bound. }
    cbn [Store.map_each]; rewrite (bind_runs _ _ _ _ _ Hrun).
    rewrite <- app_assoc, (bind_runs _ _ _ _ _ (IH (fresh ++ [series_cell h item]))).
    unfold ret; cbn [List.length seq map].
    rewrite !length_app; cbn [List.length].
    replace (List.length h + (List.length fresh + 1))
      with (S (List.length h + List.length fresh)) by lia.
    now rewrite <- !app_assoc.
Qed.

(** X10. The feature series of [n] items takes [n + 1] new cells and
    changes none: one object per item, which holds the values of the
    [feature] and the [importance] of the item as they are, references
    included, and after them the array of these objects, which is what is
    returned.  Without [model_metrics] or [feature_importances] it takes
    one cell, a new empty array. *)
Theorem feature_series_cells (h : heap) (model_metrics : val) :
  (forall l items,
      Store.is_nullish model_metrics = false ->
      Store.get_own h model_metrics "feature_importances" = VRef l ->
      nth_error h l = Some (OArr items) ->
      Forall (fun item => Store.is_nullish item = false /\ bound h item = true)
        items ->
      Store.featureData model_metrics h
      = (Ok (VRef (List.length h + List.length items)),
         h ++ map (series_cell h) items
           ++ [OArr (map VRef (seq (List.length h) (List.length items)))]))
  /\ (Store.is_nullish model_metrics = true
      \/ Store.is_nullish (Store.get_own h model_metrics "feature_importances")
         = true ->
      Store.featureData model_metrics h
      = (Ok (VRef (List.length h)), h ++ [OArr []])).
Proof.
  split.
  - intros l items Hmm Hfi Hl Hitems.
    unfold Store.featureData, Store.feature_chain; rewrite Hmm.
    assert (Hchain :
      Store.bind (Store.get model_metrics "feature_importances")
        (fun feature_importances =>
           if Store.is_nullish feature_importances then ret VUndefined
           else Store.bind
                  (Store.Array_map Store.feature_item feature_importances)
                  (fun items0 => alloc (OArr items0))) h
      = (Ok (VRef (List.length h + List.length items)),
         h ++ map (series_cell h) items
           ++ [OArr (map VRef (seq (List.length h) (List.length items)))])).
    { rewrite (bind_runs _ _ _ _ _ (get_runs _ _ _ Hmm)), Hfi.
      cbn [Store.is_nullish].
      assert (Hmap : Store.Array_map Store.feature_item (VRef l) h
                     = (Ok (map VRef (seq (List.length h) (List.length items))),
                        h ++ map (series_cell h) items)).
      { unfold Store.Array_map; rewrite Hl.
        pose proof (feature_items_run h items Hitems []) as Hrun.
        now rewrite app_nil_r in Hrun. }
      rewrite (bind_runs _ _ _ _ _ Hmap); unfold alloc.
      now rewrite length_app, length_map, <- app_assoc. }
    now rewrite (bind_runs _ _ _ _ _ Hchain).
  - intros Habsent; unfold Store.featureData, Store.feature_chain.
    destruct (Store.is_nullish model_metrics) eqn:Hmm; [reflexivity|].
    destruct Habsent as [Habsent | Habsent]; [discriminate|].
    unfold Store.bind at 1.
    rewrite (bind_runs _ _ _ _ _ (get_runs _ _ _ Hmm)), Habsent.
    reflexivity.
Qed.

(** ** The theorems at the reports of the specification *)

Lemma charted_heap_repr : repr charted_heap (VRef 6) charted_report.
Proof.
  unfold charted_report, age_report, importance_of_age, num; cbn [app].
  repeat first [ reflexivity | split | econstructor ].
Qed.

Lemma featureData_maps_every_item_witness :
  exists series,
    featureData (get_own charted_report "model_metrics") = Ok (JArr series)
    /\ series = [JObj [("name", JStr "age"); ("importance", JNum (Fin (8 # 10)))]]
    /\ List.length series = 1
    /\ featureData (get_own (age_report []) "model_metrics") = Ok (JArr []).
Proof.
  destruct (featureData_maps_every_item charted_report) as [Hseq _].
  destruct (Hseq [importance_of_age]) as (series & Hfd & Hmap & Hlen & _);
    [reflexivity | reflexivity | repeat constructor |].
  destruct (featureData_maps_every_item (age_report [])) as (_ & _ & Habsent).
  exists series.
  split; [exact Hfd|]; split; [exact Hmap|]; split; [exact Hlen|].
  apply Habsent; reflexivity.
Defined.

Lemma absent_report_gives_empty_state_witness :
  is_nullish JNull = true
  /\ @ReportView example_runtime JNull = Ok empty_state
  /\ panels (empty_state : node jsval) = 0.
Proof.
  split; [reflexivity|].
  destruct (@absent_report_gives_empty_state example_runtime JNull eq_refl)
    as (Hview & _ & Hpanels).
  now split.
Defined.

Lemma falsy_report_gives_empty_state_witness :
  truthy (num 0) = false
  /\ @ReportView example_runtime (num 0) = Ok empty_state
  /\ @ReportView example_runtime (JNum NaN) = Ok empty_state
  /\ @ReportView example_runtime (JStr "") = Ok empty_state
  /\ @ReportView example_runtime (JBool false) = Ok empty_state.
Proof.
  split; [reflexivity|].
  split; [apply falsy_report_gives_empty_state; reflexivity|].
  split; [apply falsy_report_gives_empty_state; reflexivity|].
  split; apply falsy_report_gives_empty_state; reflexivity.
Defined.

Lemma chart_panel_iff_series_nonempty_witness :
  exists series view,
    featureData (get_own charted_report "model_metrics") = Ok (JArr series)
    /\ @ReportView example_runtime charted_report = Ok view
    /\ (In "BarChart" (tags view) <-> 0 < List.length series).
Proof.
  destruct (@chart_panel_iff_series_nonempty example_runtime charted_report
              [("age", JStr "int")] [("age", num 0)] [])
    as (series & view & Hfd & Hview & _ & Hchart & _); [now split|].
  now exists series, view.
Defined.

(** The first scenario of the specification without its
    [dropped_columns]: the claim that the affirmation is rendered fails,
    the component throws. *)
Lemma absent_dropped_columns_counterexample :
  truthy (age_report []) = true
  /\ get_own (age_report []) "dropped_columns" = JUndefined
  /\ @ReportView example_runtime (age_report []) = Throw TypeError
  /\ ~ (exists view, @ReportView example_runtime (age_report []) = Ok view).
Proof.
  repeat split; intros [view H]; discriminate H.
Qed.

Lemma absent_dropped_columns_throws_witness :
  truthy (age_report []) = true
  /\ is_nullish (get_own (age_report []) "dropped_columns") = true
  /\ @ReportView example_runtime (age_report []) = Throw TypeError.
Proof.
  split; [reflexivity|]; split; [reflexivity|].
  apply (@absent_dropped_columns_throws example_runtime); reflexivity.
Defined.

(** A report whose column types were added in the order [b], [10], [a],
    [2]: the claim that the rows of the table come in the order in which
    the keys were added fails, the rows of [2] and [10] come first. *)
Lemma column_table_insertion_order_counterexample :
  Present reordered_report
    [("b", JStr "str"); ("10", JStr "int"); ("a", JStr "str");
     ("2", JStr "int")] [] []
  /\ exists view rows,
       @ReportView example_runtime reordered_report = Ok view
       /\ at_path [1; 0; 1; 1] view = Some (Elem "tbody" [] [Arr rows])
       /\ map key_of rows
          = [Some (JStr "2"); Some (JStr "10"); Some (JStr "b");
             Some (JStr "a")]
       /\ map key_of rows
          <> map (fun col => Some (JStr col)) ["b"; "10"; "a"; "2"].
Proof.
  split; [now split|].
  do 2 eexists; split; [vm_compute; reflexivity|].
  split; [reflexivity|]; split; [reflexivity | discriminate].
Qed.

Lemma column_table_one_row_per_key_witness :
  exists view keys,
    @ReportView example_runtime reordered_report = Ok view
    /\ Object_keys (get_own reordered_report "column_types") = Ok keys
    /\ keys = ["2"; "10"; "b"; "a"]
    /\ NoDup keys.
Proof.
  destruct (@column_table_one_row_per_key example_runtime reordered_report
              [("b", JStr "str"); ("10", JStr "int"); ("a", JStr "str");
               ("2", JStr "int")] [] [])
    as (view & keys & indices & Hview & Hkeys & _ & _ & Hnodup & _).
  - now split.
  - repeat constructor; cbn; intuition discriminate.
  - exists view, keys; split; [exact Hview|]; split; [exact Hkeys|].
    split; [|exact Hnodup].
    vm_compute in Hkeys; now injection Hkeys.
Defined.



Lemma dropped_panel_affirmation_or_items_witness :
  exists view items,
    @ReportView example_runtime dropped_report = Ok view
    /\ at_path [2; 0; 1] view
       = Some (Elem "ul" [("className", JStr "list-disc pl-6")] [Arr items])
    /\ List.length items = 2
    /\ nth_error items 0
       = Some (Elem "li" [("key", JStr "id")] [Val (JStr "id")])
    /\ nth_error items 1
       = Some (Elem "li" [("key", JStr "notes")] [Val (JStr "notes")]).
Proof.
  destruct (@dropped_panel_affirmation_or_items example_runtime dropped_report
              [("age", JStr "int"); ("city", JStr "str")] [("age", num 0)]
              [JStr "id"; JStr "notes"])
    as (view & Hview & _ & _ & Hitems); [now split|].
  destruct Hitems as (items & Hbody & Hlen & Hnth); [cbn; lia|].
  exists view, items; split; [exact Hview|].
  split; [exact Hbody|]; split; [exact Hlen|].
  split; now apply Hnth.
Defined.

Lemma summary_shows_fields_verbatim_witness :
  exists view target,
    @ReportView example_runtime charted_report = Ok view
    /\ at_path [0; 0; 3] view
       = Some (Elem "p" []
                 [Elem "strong" [] [Text "Detected Target:"]; Text " ";
                  Val target])
    /\ target = JStr "None".
Proof.
  destruct (@summary_shows_fields_verbatim example_runtime charted_report
              [("age", JStr "int")] [("age", num 0)] [])
    as (view & target & Hview & Hsummary & _ & Hnone & _);
    [now split|].
  exists view, target; split; [exact Hview|].
  split; [|now apply Hnone].
  unfold at_path; destruct view as [| | | tag attrs children |];
    try discriminate Hsummary.
  cbn [slots] in Hsummary |- *; now rewrite Hsummary.
Defined.

Lemma render_is_pure_witness :
  exists fresh,
    snd (@Store.ReportView example_heap_runtime (VRef 6) charted_heap)
    = charted_heap ++ fresh
    /\ repr (charted_heap ++ fresh) (VRef 6) charted_report
    /\ result_rel (node_rel (repr (charted_heap ++ fresh)))
         (fst (@Store.ReportView example_heap_runtime (VRef 6) charted_heap))
         (@ReportView example_runtime charted_report).
Proof.
  destruct (@render_is_pure example_heap_runtime charted_heap (VRef 6))
    as (fresh & Hheap & _ & Hrepr & _).
  destruct (Hrepr charted_report charted_heap_repr) as [Hreport Hview].
  now exists fresh.
Defined.

Lemma featureData_returns_iff_well_shaped_witness :
  truthy misshapen_features_report = true
  /\ features_ok (get_own misshapen_features_report "model_metrics") = false
  /\ @ReportView example_runtime misshapen_features_report = Throw TypeError.
Proof.
  split; [reflexivity|]; split; [reflexivity|].
  destruct (@featureData_returns_iff_well_shaped example_runtime
              misshapen_features_report eq_refl) as (_ & Hthrows & _).
  now destruct (Hthrows eq_refl).
Defined.

Lemma absent_column_types_throws_witness :
  @ReportView example_runtime (JObj []) = Throw TypeError
  /\ @ReportView example_runtime (JArr []) = Throw TypeError
  /\ @ReportView example_runtime (JStr "error") = Throw TypeError.
Proof.
  split; [|split].
  - destruct (@absent_column_types_throws example_runtime (JObj []) eq_refl)
      as [Habsent _].
    now apply Habsent.
  - destruct (@absent_column_types_throws example_runtime (JArr []) eq_refl)
      as [_ Hobject].
    apply Hobject; discriminate.
  - destruct (@absent_column_types_throws example_runtime (JStr "error")
                eq_refl) as [_ Hobject].
    apply Hobject; discriminate.
Defined.

Lemma absent_missing_counts_throws_iff_keys_witness :
  (exists view, @ReportView example_runtime (uncounted_report []) = Ok view)
  /\ @ReportView example_runtime (uncounted_report [("age", JStr "int")])
     = Throw TypeError.
Proof.
  split.
  - destruct (@absent_missing_counts_throws_iff_keys example_runtime
                (uncounted_report []) [] [] eq_refl eq_refl eq_refl eq_refl
                eq_refl) as [Hreturns _].
    eexists; now apply Hreturns.
  - destruct (@absent_missing_counts_throws_iff_keys example_runtime
                (uncounted_report [("age", JStr "int")]) [("age", JStr "int")]
                [] eq_refl eq_refl eq_refl eq_refl eq_refl) as [_ Hthrows].
    now apply Hthrows.
Defined.

Lemma returned_view_has_its_panels_witness :
  exists view,
    @ReportView example_runtime charted_report = Ok view
    /\ List.length (slots view) = 4
    /\ 3 <= panels view <= 4.
Proof.
  eexists; split; [reflexivity|].
  destruct (@returned_view_has_its_panels example_runtime charted_report _
              eq_refl eq_refl) as (keys & body & _ & _ & _ & Hslots & Hpanels).
  now split.
Defined.

Lemma dropped_columns_by_their_length_witness :
  (exists view,
      @ReportView example_runtime (dropping_report (num 3)) = Ok view)
  /\ @ReportView example_runtime (dropping_report (JStr "id"))
     = Throw TypeError.
Proof.
  split.
  - destruct (@dropped_columns_by_their_length example_runtime
                (dropping_report (num 3)) [("age", JStr "int")]
                [("age", num 0)] eq_refl eq_refl eq_refl eq_refl)
      as [Haffirms _].
    eexists; apply Haffirms; left; now eexists.
  - destruct (@dropped_columns_by_their_length example_runtime
                (dropping_report (JStr "id")) [("age", JStr "int")]
                [("age", num 0)] eq_refl eq_refl eq_refl eq_refl)
      as [_ Hthrows].
    now apply (Hthrows "id").
Defined.

Lemma view_depends_on_fields_in_use_witness :
  @ReportView example_runtime
    (JObj [("datetime_columns", JArr [JStr "when"]);
           ("column_types", JObj []); ("missing_counts", JObj []);
           ("dropped_columns", JArr [])])
  = @ReportView example_runtime
      (JObj [("column_types", JObj []); ("missing_counts", JObj []);
             ("dropped_columns", JArr [])]).
Proof.
  destruct (@view_depends_on_fields_in_use example_runtime) as [_ Hdatetime].
  apply Hdatetime.
Defined.

Lemma keys_of_rows_and_items_witness :
  exists view rows items,
    @ReportView example_runtime dropped_report = Ok view
    /\ at_path [1; 0; 1; 1] view = Some (Elem "tbody" [] [Arr rows])
    /\ map key_of rows = [Some (JStr "age"); Some (JStr "city")]
    /\ at_path [2; 0; 1; 0] view = Some (Arr items)
    /\ map key_of items = [Some (JStr "id"); Some (JStr "notes")].
Proof.
  destruct (@keys_of_rows_and_items example_runtime dropped_report
              [("age", JStr "int"); ("city", JStr "str")] [("age", num 0)]
              ["id"; "notes"])
    as (view & keys & rows & Hview & Hkeys & Hbody & Hrows & _ & Hitems);
    [now split|].
  destruct Hitems as (items & Hlist & Hitems & _); [discriminate|].
  exists view, rows, items.
  split; [exact Hview|]; split; [exact Hbody|].
  split; [|split; [exact Hlist | exact Hitems]].
  vm_compute in Hkeys; injection Hkeys as <-; exact Hrows.
Defined.

Lemma table_rows_are_the_entries_witness :
  exists view rows,
    @ReportView example_runtime dropped_report = Ok view
    /\ at_path [1; 0; 1; 1] view = Some (Elem "tbody" [] [Arr rows])
    /\ In (Elem "tr" [("key", JStr "age")]
             [Elem "td" [("className", JStr "border p-2")] [Val (JStr "age")];
              Elem "td" [("className", JStr "border p-2")] [Val (JStr "int")];
              Elem "td" [("className", JStr "border p-2")] [Val (num 0)]])
          rows.
Proof.
  destruct (@table_rows_are_the_entries example_runtime dropped_report
              [("age", JStr "int"); ("city", JStr "str")] [("age", num 0)]
              [JStr "id"; JStr "notes"])
    as (view & rows & Hview & Hbody & _ & Hentry & _).
  - now split.
  - repeat constructor; cbn; intuition discriminate.
  - repeat constructor; cbn; intuition discriminate.
  - exists view, rows; split; [exact Hview|]; split; [exact Hbody|].
    destruct (Hentry "age" (JStr "int")) as (missing & Hrow & Hcount & _);
      [now left|].
    now rewrite (Hcount (num 0)) in Hrow by now left.
Defined.

Lemma feature_series_cells_witness :
  Store.featureData (VRef 2) charted_heap
  = (Ok (VRef 8),
     charted_heap
       ++ [OObj [("name", VStr "age"); ("importance", VNum (Fin (8 # 10)))];
           OArr [VRef 7]]).
Proof.
  destruct (feature_series_cells charted_heap (VRef 2)) as [Hcells _].
  apply (Hcells 1 [VRef 0]); try reflexivity.
  now repeat constructor.
Defined.

Lemma column_types_as_array_witness :
  exists summary dropped chart,
    @ReportView example_runtime listed_types_report
    = Ok (Dashboard summary
            (ColumnInfo [column_row "0" (Own (JStr "int")) (Own JUndefined);
                         column_row "1" (Own (JStr "str")) (Own JUndefined)])
            dropped chart).
Proof.
  do 3 eexists.
  now rewrite (@column_types_as_array example_runtime listed_types_report
                 [JStr "int"; JStr "str"] [] [] eq_refl eq_refl eq_refl
                 eq_refl eq_refl).
Defined.
